(** * Marstek UDP client: a shallow embedding of [marstek_api.py]

    The development follows [custom_components/marstek_ha/marstek_api.py]
    (class [MarstekAPI]), [const.py] and the mode selector of [select.py].

    - Python values that travel through the client (request parameters,
      parsed replies) are the inductive [pyval]; a [dict] is an association
      list in insertion order, a [str] a list of code points.
    - The socket, [bytes.decode], [json.loads] and [float.__repr__] belong to
      the interpreter and the operating system: they are the fields of [Env],
      a section variable.  Socket calls are answered by oracles indexed by the
      number of socket calls made so far, so that every behaviour of the
      network can be described.
    - Methods are computations in a state-and-exception monad [M] over the
      client object and the observable world (open sockets, datagrams sent,
      log records). *)

From Stdlib Require Import ZArith NArith List String Ascii Bool Lia.
From Stdlib Require Import SpecFloat DecimalString.
Import ListNotations.
Local Open Scope string_scope.
Local Open Scope list_scope.

(** ** Python values *)

Module Py.

(** A Python [str]: its code points. *)
Definition pystr := list N.

(** A source literal (ASCII text) as a [str]. *)
Definition lit (s : string) : pystr :=
  map (fun a => N_of_ascii a) (list_ascii_of_string s).

Fixpoint str_eqb (a b : pystr) : bool :=
  match a, b with
  | [], [] => true
  | x :: a', y :: b' => N.eqb x y && str_eqb a' b'
  | _, _ => false
  end.

Fixpoint is_prefix (p s : pystr) : bool :=
  match p, s with
  | [], _ => true
  | x :: p', y :: s' => N.eqb x y && is_prefix p' s'
  | _ :: _, [] => false
  end.

(** [p in s] for two strings: substring test. *)
Fixpoint is_substring (p s : pystr) : bool :=
  is_prefix p s ||
  match s with
  | [] => false
  | _ :: s' => is_substring p s'
  end.

#[warnings="-register-all"]
Inductive pyval : Type :=
| PNone
| PBool (b : bool)
| PInt (z : Z)
| PFloat (f : spec_float)
| PStr (s : pystr)
| PList (l : list pyval)
| PDict (d : list (pystr * pyval)).

Definition pydict := list (pystr * pyval).

(** Exceptions, by the classes the handlers of the client distinguish.
    [TimeoutError] is [socket.timeout]; it and [ConnectionResetError] are
    subclasses of [OSError]; all of them are subclasses of [Exception].
    What is raised outside of class [Exception] (the cancellation of the
    task, the exit of the interpreter) is not part of the model. *)
Inductive exn : Type :=
| TimeoutError
| ConnectionResetError
| OSError
| JSONDecodeError
| TypeError
| AttributeError
| KeyError
| OtherException.

Definition is_OSError (e : exn) : bool :=
  match e with
  | TimeoutError | ConnectionResetError | OSError => true
  | _ => false
  end.

(** Truth value of an object ([if x], [x or y], [not x]). *)
Definition truthy (v : pyval) : bool :=
  match v with
  | PNone => false
  | PBool b => b
  | PInt z => negb (Z.eqb z 0)
  | PFloat (S754_zero _) => false
  | PFloat _ => true
  | PStr s => match s with [] => false | _ => true end
  | PList l => match l with [] => false | _ => true end
  | PDict d => match d with [] => false | _ => true end
  end.

(** [x is True] *)
Definition is_True (v : pyval) : bool :=
  match v with
  | PBool true => true
  | _ => false
  end.

(** *** dict *)

Fixpoint dict_get (d : pydict) (key : pystr) : option pyval :=
  match d with
  | [] => None
  | (k, v) :: d' => if str_eqb k key then Some v else dict_get d' key
  end.

Definition dict_mem (key : pystr) (d : pydict) : bool :=
  match dict_get d key with Some _ => true | None => false end.

(** [d.get(key, default)] *)
Definition dict_get_default (d : pydict) (key : pystr) (default : pyval) : pyval :=
  match dict_get d key with Some v => v | None => default end.

(** [d[key] = v]: an existing key keeps its position, a new one goes last. *)
Fixpoint dict_set (d : pydict) (key : pystr) (v : pyval) : pydict :=
  match d with
  | [] => [(key, v)]
  | (k, w) :: d' =>
      if str_eqb k key then (k, v) :: d' else (k, w) :: dict_set d' key v
  end.

(** *** Operations on an object whose class is not known statically *)

(** [key in container], with a [str] as left operand. *)
Definition py_contains (key : pystr) (container : pyval) : exn + bool :=
  match container with
  | PDict d => inr (dict_mem key d)
  | PList l =>
      inr (existsb (fun x => match x with
                            | PStr s => str_eqb key s
                            | _ => false
                            end) l)
  | PStr s => inr (is_substring key s)
  | _ => inl TypeError
  end.

(** [container[key]], with a [str] as index. *)
Definition py_getitem (container : pyval) (key : pystr) : exn + pyval :=
  match container with
  | PDict d =>
      match dict_get d key with
      | Some v => inr v
      | None => inl KeyError
      end
  | _ => inl TypeError
  end.

(** [list(x.keys())] *)
Definition py_keys (x : pyval) : exn + list pystr :=
  match x with
  | PDict d => inr (map fst d)
  | _ => inl AttributeError
  end.

(** [x.get(key)] *)
Definition py_get (x : pyval) (key : pystr) : exn + pyval :=
  match x with
  | PDict d => inr (dict_get_default d key PNone)
  | _ => inl AttributeError
  end.

End Py.
Export Py.

(** ** [json.dumps] *)

Module Json.

Local Open Scope string_scope.

(** The double quote character. *)
Definition dquote : ascii := "034"%char.

Definition hex_digit (n : N) : ascii :=
  match n with
  | 0 => "0" | 1 => "1" | 2 => "2" | 3 => "3" | 4 => "4"
  | 5 => "5" | 6 => "6" | 7 => "7" | 8 => "8" | 9 => "9"
  | 10 => "a" | 11 => "b" | 12 => "c" | 13 => "d" | 14 => "e"
  | _ => "f"
  end%N%char.

(** ['\\u{0:04x}'.format(n)] for [n < 0x10000]. *)
Definition u_escape (n : N) : string :=
  String "\" (String "u"
    (String (hex_digit (N.land (N.shiftr n 12) 15))
    (String (hex_digit (N.land (N.shiftr n 8) 15))
    (String (hex_digit (N.land (N.shiftr n 4) 15))
    (String (hex_digit (N.land n 15)) EmptyString))))).

(** One code point of a string literal, as [py_encode_basestring_ascii]
    writes it: printable ASCII is kept, the rest is escaped. *)
Definition escape_char (c : N) : string :=
  (if c =? 34 then String "\" (String dquote EmptyString)
   else if c =? 92 then String "\" (String "\" EmptyString)
   else if c =? 8 then String "\" (String "b" EmptyString)
   else if c =? 12 then String "\" (String "f" EmptyString)
   else if c =? 10 then String "\" (String "n" EmptyString)
   else if c =? 13 then String "\" (String "r" EmptyString)
   else if c =? 9 then String "\" (String "t" EmptyString)
   else if (32 <=? c) && (c <=? 126) then String (ascii_of_N c) EmptyString
   else if c <? 65536 then u_escape c
   else
     let n := c - 65536 in
     u_escape (N.lor 55296 (N.land (N.shiftr n 10) 1023)) ++
     u_escape (N.lor 56320 (N.land n 1023)))%N.

Fixpoint escape (s : pystr) : string :=
  match s with
  | [] => EmptyString
  | c :: s' => escape_char c ++ escape s'
  end.

Definition quote (s : pystr) : string :=
  String dquote (escape s ++ String dquote EmptyString).

(** [int.__repr__] *)
Definition int_repr (z : Z) : string :=
  NilZero.string_of_int (Z.to_int z).

Section Dumps.

(** [float.__repr__], and the spellings [json] uses for the non-finite
    values; supplied by the interpreter. *)
Variable float_repr : spec_float -> string.

(** The two separators of [json.dumps(..., separators=(item, key))]. *)
Variables item_sep key_sep : string.

Fixpoint dumps (v : pyval) : string :=
  match v with
  | PNone => "null"
  | PBool true => "true"
  | PBool false => "false"
  | PInt z => int_repr z
  | PFloat f => float_repr f
  | PStr s => quote s
  | PList l =>
      "[" ++
      (fix items (l : list pyval) : string :=
         match l with
         | [] => EmptyString
         | [x] => dumps x
         | x :: l' => dumps x ++ item_sep ++ items l'
         end) l ++ "]"
  | PDict d =>
      "{" ++
      (fix members (d : list (pystr * pyval)) : string :=
         match d with
         | [] => EmptyString
         | [(k, x)] => quote k ++ key_sep ++ dumps x
         | (k, x) :: d' => quote k ++ key_sep ++ dumps x ++ item_sep ++ members d'
         end) d ++ "}"
  end.

End Dumps.

End Json.

(** ** Constants ([const.py]) *)

Definition DEFAULT_PORT : Z := 30000.
Definition DEFAULT_TIMEOUT : Z := 3.

Definition CMD_GET_DEVICE : pystr := lit "Marstek.GetDevice".
Definition CMD_WIFI_STATUS : pystr := lit "Wifi.GetStatus".
Definition CMD_BLE_STATUS : pystr := lit "BLE.GetStatus".
Definition CMD_BAT_STATUS : pystr := lit "Bat.GetStatus".
Definition CMD_PV_STATUS : pystr := lit "PV.GetStatus".
Definition CMD_ES_STATUS : pystr := lit "ES.GetStatus".
Definition CMD_ES_SET_MODE : pystr := lit "ES.SetMode".
Definition CMD_ES_GET_MODE : pystr := lit "ES.GetMode".

Definition ES_MODE_AUTO : pystr := lit "Auto".
Definition ES_MODE_AI : pystr := lit "AI".
Definition ES_MODE_MANUAL : pystr := lit "Manual".
Definition ES_MODE_PASSIVE : pystr := lit "Passive".

Definition ES_MODES : list pystr :=
  [ES_MODE_AUTO; ES_MODE_AI; ES_MODE_MANUAL; ES_MODE_PASSIVE].

(** ** The client object, the world and the environment *)

(** The attributes of a [MarstekAPI] instance.  [_sock] is the identifier of
    the socket object the client holds, if any. *)
Record MarstekAPI : Type := {
  host : pystr;
  port : Z;
  local_port : Z;
  _sock : option nat;
  _connected : bool;
  _timeout : Z
}.

(** [MarstekAPI.__init__] *)
Definition init (host : pystr) (port local_port : Z) : MarstekAPI :=
  {| host := host; port := port; local_port := local_port;
     _sock := None; _connected := false; _timeout := DEFAULT_TIMEOUT |}.

Inductive level : Type := DEBUG | INFO | WARNING | ERROR.

(** A datagram handed to the network by a successful [sendto]. *)
Record datagram : Type := {
  dg_sock : nat;
  dg_payload : string;
  dg_host : pystr;
  dg_port : Z
}.

(** What the client leaves behind outside of its own attributes. *)
Record World : Type := {
  clock : nat;               (* socket calls made so far *)
  next_sock : nat;           (* identifier of the next socket created *)
  open_socks : list nat;     (* sockets created and not closed *)
  sent : list datagram;      (* datagrams sent, oldest first *)
  log : list (level * string);  (* log records (level, format), oldest first *)
  refresh_requests : nat     (* calls of the coordinator's async_request_refresh *)
}.

Record State : Type := {
  self : MarstekAPI;
  world : World
}.

(** The interpreter and the operating system.  The answer to a socket call
    depends on the number of socket calls made before it ([clock]); [None]
    means that the call returned normally. *)
Record Env : Type := {
  os_socket : nat -> option exn;                 (* socket.socket(AF_INET, SOCK_DGRAM) *)
  os_settimeout : nat -> option exn;             (* sock.settimeout(t) *)
  os_bind : nat -> option exn;                   (* sock.bind(addr) *)
  os_getsockname : nat -> exn + (pystr * Z);     (* sock.getsockname() *)
  os_sendto : nat -> option exn;                 (* sock.sendto(data, addr), in the executor *)
  os_recvfrom : nat -> exn + (string * (pystr * Z));  (* sock.recvfrom(n): the datagram *)
  os_close : nat -> option exn;                  (* sock.close() *)
  bytes_decode : string -> pystr;                (* data.decode('utf-8', errors='ignore') *)
  json_loads : pystr -> exn + pyval;             (* json.loads(s) *)
  float_repr : spec_float -> string              (* how json.dumps writes a float *)
}.

(** ** The monad of methods *)

Inductive outcome (A : Type) : Type :=
| Return (a : A)
| Raise (e : exn)
| OutOfFuel.

Arguments Return {A} a.
Arguments Raise {A} e.
Arguments OutOfFuel {A}.

Definition M (A : Type) : Type := State -> outcome A * State.

Definition ret {A} (a : A) : M A := fun st => (Return a, st).

Definition raise {A} (e : exn) : M A := fun st => (Raise e, st).

Definition out_of_fuel {A} : M A := fun st => (OutOfFuel, st).

Definition bind {A B} (m : M A) (k : A -> M B) : M B :=
  fun st =>
    match m st with
    | (Return a, st') => k a st'
    | (Raise e, st') => (Raise e, st')
    | (OutOfFuel, st') => (OutOfFuel, st')
    end.

Declare Scope py_scope.
Delimit Scope py_scope with py.
Notation "x <- m ;; k" := (bind m (fun x => k))
  (at level 61, m at next level, right associativity) : py_scope.
Notation "m ;; k" := (bind m (fun _ => k))
  (at level 61, right associativity) : py_scope.
Local Open Scope py_scope.

(** [try: body except ...: handler]: [handler e] is the clause that matches
    [e], if one does. *)
Definition try_except {A} (body : M A) (handler : exn -> option (M A)) : M A :=
  fun st =>
    match body st with
    | (Raise e, st') =>
        match handler e with
        | Some h => h st'
        | None => (Raise e, st')
        end
    | r => r
    end.

(** [try: body finally: final] *)
Definition try_finally {A} (body : M A) (final : M unit) : M A :=
  fun st =>
    match body st with
    | (OutOfFuel, st') => (OutOfFuel, st')
    | (o, st') =>
        match final st' with
        | (Return _, st'') => (o, st'')
        | (Raise e, st'') => (Raise e, st'')
        | (OutOfFuel, st'') => (OutOfFuel, st'')
        end
    end.

(** The value of an expression that may raise. *)
Definition lift {A} (r : exn + A) : M A :=
  match r with
  | inl e => raise e
  | inr a => ret a
  end.

Definition get_self : M MarstekAPI := fun st => (Return (self st), st).

(** The sockets left open when the handle, which holds [held], is given
    [new].  The client has the only reference to its socket, so a socket
    that leaves the handle is reclaimed by the interpreter, which closes it;
    assigning the socket that is held releases nothing. *)
Definition release (held new : option nat) (socks : list nat) : list nat :=
  match held, new with
  | Some fd, Some fd' =>
      if Nat.eqb fd fd' then socks else remove Nat.eq_dec fd socks
  | Some fd, None => remove Nat.eq_dec fd socks
  | None, _ => socks
  end.

(** [self._sock = s] *)
Definition set_sock (s : option nat) : M unit :=
  fun st =>
    let me := self st in
    let w := world st in
    (Return tt,
     {| self := {| host := host me; port := port me; local_port := local_port me;
                   _sock := s; _connected := _connected me;
                   _timeout := _timeout me |};
        world := {| clock := clock w; next_sock := next_sock w;
                    open_socks := release (_sock me) s (open_socks w);
                    sent := sent w; log := log w;
                    refresh_requests := refresh_requests w |} |}).

Definition set_connected (b : bool) : M unit :=
  fun st =>
    let me := self st in
    (Return tt,
     {| self := {| host := host me; port := port me; local_port := local_port me;
                   _sock := _sock me; _connected := b;
                   _timeout := _timeout me |};
        world := world st |}).

Definition modify_world (f : World -> World) : M unit :=
  fun st => (Return tt, {| self := self st; world := f (world st) |}).

(** [_LOGGER.<lvl>(fmt, ...)]: the record keeps the level and the format. *)
Definition logging (lvl : level) (fmt : string) : M unit :=
  modify_world (fun w =>
    {| clock := clock w; next_sock := next_sock w; open_socks := open_socks w;
       sent := sent w; log := log w ++ [(lvl, fmt)];
       refresh_requests := refresh_requests w |}).

(** ** Socket calls *)

Section Client.

Variable E : Env.

(** Every socket call advances the clock and reads its answer there. *)
Definition next_tick : M nat :=
  fun st =>
    let w := world st in
    (Return (clock w),
     {| self := self st;
        world := {| clock := S (clock w); next_sock := next_sock w;
                    open_socks := open_socks w; sent := sent w; log := log w;
                    refresh_requests := refresh_requests w |} |}).

(** [socket.socket(socket.AF_INET, socket.SOCK_DGRAM)] *)
Definition socket_socket : M nat :=
  t <- next_tick ;;
  match os_socket E t with
  | Some e => raise e
  | None =>
      fun st =>
        let w := world st in
        (Return (next_sock w),
         {| self := self st;
            world := {| clock := clock w; next_sock := S (next_sock w);
                        open_socks := open_socks w ++ [next_sock w];
                        sent := sent w; log := log w;
                        refresh_requests := refresh_requests w |} |})
  end.

Definition sock_settimeout (fd : nat) (timeout : Z) : M unit :=
  t <- next_tick ;;
  match os_settimeout E t with
  | Some e => raise e
  | None => ret tt
  end.

Definition sock_bind (fd : nat) (addr : pystr * Z) : M unit :=
  t <- next_tick ;;
  match os_bind E t with
  | Some e => raise e
  | None => ret tt
  end.

Definition sock_getsockname (fd : nat) : M (pystr * Z) :=
  t <- next_tick ;;
  lift (os_getsockname E t).

Definition sock_sendto (fd : nat) (data : string) (addr : pystr * Z) : M unit :=
  t <- next_tick ;;
  match os_sendto E t with
  | Some e => raise e
  | None =>
      modify_world (fun w =>
        {| clock := clock w; next_sock := next_sock w;
           open_socks := open_socks w;
           sent := sent w ++ [{| dg_sock := fd; dg_payload := data;
                                 dg_host := fst addr; dg_port := snd addr |}];
           log := log w; refresh_requests := refresh_requests w |})
  end.

(** [sock.recvfrom(bufsize)]: at most [bufsize] bytes of the datagram. *)
Definition sock_recvfrom (fd : nat) (bufsize : nat) : M (string * (pystr * Z)) :=
  t <- next_tick ;;
  r <- lift (os_recvfrom E t) ;;
  ret (substring 0 bufsize (fst r), snd r).

(** [sock.close()]: the socket is released whether or not the call
    reports an error. *)
Definition sock_close (fd : nat) : M unit :=
  t <- next_tick ;;
  modify_world (fun w =>
    {| clock := clock w; next_sock := next_sock w;
       open_socks := remove Nat.eq_dec fd (open_socks w);
       sent := sent w; log := log w;
       refresh_requests := refresh_requests w |}) ;;
  match os_close E t with
  | Some e => raise e
  | None => ret tt
  end.

(** [self._sock.<method>(...)]: an attribute of [None] raises. *)
Definition with_sock {A} (method : nat -> M A) : M A :=
  me <- get_self ;;
  match _sock me with
  | Some fd => method fd
  | None => raise AttributeError
  end.

(** ** [MarstekAPI] *)

(** [connect], given the method [get_device_info] it calls. *)
Definition connect_with (get_device_info : M pyval) : M bool :=
  try_except
    (fd <- socket_socket ;;
     set_sock (Some fd) ;;
     me <- get_self ;;
     with_sock (fun s => sock_settimeout s (_timeout me)) ;;
     try_except
       (with_sock (fun s => sock_bind s ([], local_port me)))
       (fun bind_err =>
          if is_OSError bind_err then
            Some (logging DEBUG "Could not bind to port %s, using random port: %s" ;;
                  with_sock (fun s => sock_bind s ([], 0%Z)))
          else None) ;;
     set_connected true ;;
     device_info <- get_device_info ;;
     if truthy device_info then
       logging DEBUG "Successfully connected to Marstek device" ;;
       ret true
     else
       logging ERROR "Device did not respond to test command" ;;
       ret false)
    (fun err =>
       if is_OSError err then
         Some (logging ERROR "Failed to create UDP socket: %s" ;;
               ret false)
       else
         Some (logging ERROR "Unexpected error setting up UDP connection: %s" ;;
               ret false)).

Definition disconnect : M unit :=
  me <- get_self ;;
  match _sock me with
  | Some fd =>
      try_finally
        (try_except
           (sock_close fd ;;
            logging DEBUG "UDP socket closed")
           (fun err => Some (logging DEBUG "Error closing socket: %s")))
        (set_sock None ;;
         set_connected false)
  | None => ret tt
  end.

(** [x or y] *)
Definition py_or (x y : pyval) : pyval := if truthy x then x else y.

(** The argument [params: dict | None] as an object. *)
Definition params_object (params : option pydict) : pyval :=
  match params with
  | Some d => PDict d
  | None => PNone
  end.

(** The [request] of [_send_command], after the default of its params. *)
Definition build_request (command : pystr) (params : option pydict) : M pydict :=
  let request :=
    [(lit "id", PInt 1);
     (lit "method", PStr command);
     (lit "params", py_or (params_object params) (PDict []))] in
  p <- lift (py_getitem (PDict request) (lit "params")) ;;
  if negb (truthy p) then
    ret (dict_set request (lit "params") (PDict [(lit "ble_mac", PStr (lit "0"))]))
  else ret request.

(** [json.dumps(request, separators=(',', ':')).encode('utf-8')].  With the
    default [ensure_ascii] the text is ASCII, and its encoding is the same
    sequence of bytes. *)
Definition encode_request (request : pydict) : string :=
  Json.dumps (float_repr E) "," ":" (PDict request).

(** The dispatch on the parsed reply (lines 144-152). *)
Definition dispatch (response : pyval) : M pyval :=
  has_result <- lift (py_contains (lit "result") response) ;;
  if has_result then
    result <- lift (py_getitem response (lit "result")) ;;
    _ <- lift (py_keys result) ;;
    logging DEBUG "  ✓ Command successful, result keys: %s" ;;
    result <- lift (py_getitem response (lit "result")) ;;
    ret result
  else
    has_error <- lift (py_contains (lit "error") response) ;;
    if has_error then
      _ <- lift (py_getitem response (lit "error")) ;;
      logging ERROR "  ✗ Device returned error: %s" ;;
      ret PNone
    else
      logging WARNING "  ⚠ Unexpected response format: %s" ;;
      ret response.

(** The [try] statement of [_send_command] (lines 97-174). *)
Definition send_command_try (command : pystr) (params : option pydict) : M pyval :=
  try_except
    (request <- build_request command params ;;
     let message := encode_request request in
     logging INFO "→ Sending UDP command: %s" ;;
     logging DEBUG "  Request payload: %s" ;;
     logging DEBUG "  Request size: %d bytes" ;;
     me <- get_self ;;
     match _sock me with
     | Some fd => _ <- sock_getsockname fd ;; ret tt
     | None => ret tt
     end ;;
     logging DEBUG "  Sending from local port %s to %s:%s" ;;
     with_sock (fun s => sock_sendto s message (host me, port me)) ;;
     logging DEBUG "  ✓ Command sent, waiting for response..." ;;
     try_except
       (r <- with_sock (fun s => sock_recvfrom s 4096) ;;
        let response_data := fst r in
        logging DEBUG "  ✓ Received %d bytes from %s" ;;
        logging DEBUG "  Raw response (hex): %s" ;;
        logging DEBUG "  Raw response (ascii): %s" ;;
        let response_str := bytes_decode E response_data in
        logging DEBUG "  Decoded response: %s" ;;
        response <- lift (json_loads E response_str) ;;
        logging INFO "← Received response for '%s'" ;;
        dispatch response)
       (fun e =>
          match e with
          | TimeoutError =>
              Some (logging ERROR "  ✗ Timeout waiting for response (waited %s seconds)" ;;
                    logging ERROR "  → Check if the device IP is correct: %s" ;;
                    logging ERROR "  → Check if the device port is correct: %s" ;;
                    logging ERROR "  → Check if the device is powered on and connected" ;;
                    ret PNone)
          | ConnectionResetError =>
              Some (logging ERROR "  ✗ ConnectionResetError: Remote host sent Port Unreachable (ICMP)" ;;
                    logging ERROR "  → The device is reachable but port %s is closed" ;;
                    logging ERROR "  → Check if the correct port is configured" ;;
                    ret PNone)
          | _ => None
          end))
    (fun err =>
       match err with
       | JSONDecodeError =>
           Some (logging ERROR "  ✗ Failed to parse JSON response: %s" ;;
                 logging ERROR "  → Response was: %s" ;;
                 logging ERROR "  → The device might not be using the expected protocol" ;;
                 ret PNone)
       | _ =>
           Some (logging ERROR "  ✗ Error sending command '%s': %s" ;;
                 logging ERROR "  → Error type: %s" ;;
                 ret PNone)
       end).

(** [_send_command].  [connect] calls [get_device_info], which calls
    [_send_command] again: [fuel] bounds the depth of these calls. *)
Fixpoint _send_command (fuel : nat) (command : pystr) (params : option pydict)
  {struct fuel} : M pyval :=
  match fuel with
  | O => out_of_fuel
  | S fuel' =>
      let get_device_info := _send_command fuel' CMD_GET_DEVICE None in
      let connect := connect_with get_device_info in
      me <- get_self ;;
      match _sock me with
      | None =>
          logging DEBUG "No active socket, attempting to connect..." ;;
          ok <- connect ;;
          if negb ok then
            logging ERROR "Cannot send command '%s': connection failed" ;;
            ret PNone
          else send_command_try command params
      | Some _ => send_command_try command params
      end
  end.

Definition get_device_info (fuel : nat) : M pyval :=
  _send_command fuel CMD_GET_DEVICE None.

Definition connect (fuel : nat) : M bool :=
  connect_with (get_device_info fuel).

Definition get_wifi_status (fuel : nat) : M pyval :=
  _send_command fuel CMD_WIFI_STATUS None.

Definition get_ble_status (fuel : nat) : M pyval :=
  _send_command fuel CMD_BLE_STATUS None.

Definition get_battery_status (fuel : nat) : M pyval :=
  _send_command fuel CMD_BAT_STATUS (Some [(lit "id", PInt 0)]).

Definition get_pv_status (fuel : nat) : M pyval :=
  _send_command fuel CMD_PV_STATUS (Some [(lit "id", PInt 0)]).

Definition get_es_status (fuel : nat) : M pyval :=
  _send_command fuel CMD_ES_STATUS (Some [(lit "id", PInt 0)]).

Definition get_es_mode (fuel : nat) : M pyval :=
  result <- _send_command fuel CMD_ES_GET_MODE (Some [(lit "id", PInt 0)]) ;;
  ret result.

(** The [params] that [set_es_mode] builds (lines 215-244). *)
Definition es_mode_params (mode : pystr) (config : option pydict) : pydict :=
  let config := match config with None => [] | Some c => c end in
  let mode_config := [(lit "mode", PStr mode)] in
  let mode_config :=
    if str_eqb mode (lit "Auto") then
      dict_set mode_config (lit "auto_cfg")
        (dict_get_default config (lit "auto_cfg")
           (PDict [(lit "enable", PInt 1)]))
    else if str_eqb mode (lit "AI") then
      dict_set mode_config (lit "ai_cfg")
        (dict_get_default config (lit "ai_cfg")
           (PDict [(lit "enable", PInt 1)]))
    else if str_eqb mode (lit "Manual") then
      dict_set mode_config (lit "manual_cfg")
        (dict_get_default config (lit "manual_cfg")
           (PDict [(lit "time_num", PInt 1);
                   (lit "start_time", PStr (lit "08:30"));
                   (lit "end_time", PStr (lit "20:30"));
                   (lit "week_set", PInt 127);
                   (lit "power", PInt 100);
                   (lit "enable", PInt 1)]))
    else if str_eqb mode (lit "Passive") then
      dict_set mode_config (lit "passive_cfg")
        (dict_get_default config (lit "passive_cfg")
           (PDict [(lit "power", PInt 100);
                   (lit "cd_time", PInt 300)]))
    else mode_config in
  [(lit "id", PInt 1);
   (lit "config", PDict mode_config)].

Definition set_es_mode (fuel : nat) (mode : pystr) (config : option pydict) : M bool :=
  let params := es_mode_params mode config in
  result <- _send_command fuel CMD_ES_SET_MODE (Some params) ;;
  (* result and result.get("set_result") is True *)
  if truthy result then
    set_result <- lift (py_get result (lit "set_result")) ;;
    if is_True set_result then ret true else ret false
  else ret false.

Definition get_all_data (fuel : nat) : M pyval :=
  logging DEBUG "Fetching all data from device..." ;;
  device <- get_device_info fuel ;;
  battery <- get_battery_status fuel ;;
  es_mode <- get_es_mode fuel ;;
  let data := [(lit "device", device);
               (lit "battery", battery);
               (lit "es_mode", es_mode)] in
  logging DEBUG "Data fetch complete. Successful: %s/%s" ;;
  ret (PDict data).

(** ** The mode selector ([select.py]) *)

(** [coordinator.async_request_refresh()], a service of the host. *)
Definition async_request_refresh : M unit :=
  modify_world (fun w =>
    {| clock := clock w; next_sock := next_sock w;
       open_socks := open_socks w; sent := sent w; log := log w;
       refresh_requests := S (refresh_requests w) |}).

(** [MarstekESModeSelect.async_select_option] *)
Definition async_select_option (fuel : nat) (option : pystr) : M unit :=
  if negb (existsb (str_eqb option) ES_MODES) then
    logging ERROR "Invalid ES mode: %s" ;;
    ret tt
  else
    logging INFO "Attempting to set ES mode to: %s" ;;
    result <- set_es_mode fuel option None ;;
    if result then
      logging INFO "Successfully set ES mode to: %s" ;;
      async_request_refresh
    else
      logging ERROR "Failed to set ES mode to %s".

End Client.

(** ** The layers above the client

    The update coordinator ([coordinator.py]), the registration step of the
    config flow ([config_flow.py]) and the entities ([sensor.py],
    [binary_sensor.py], [select.py]), as far as they are code of this
    repository.  An exception class of these layers is a result of its own
    type; the exceptions of the client keep propagating as [Raise]. *)

(** *** More operations on objects *)

(** [isinstance(x, dict)] *)
Definition is_dict (x : pyval) : bool :=
  match x with
  | PDict _ => true
  | _ => false
  end.

(** [x is None] *)
Definition is_None (x : pyval) : bool :=
  match x with
  | PNone => true
  | _ => false
  end.

(** [x.get(key, default)] *)
Definition py_get_default (x : pyval) (key : pystr) (default : pyval) : exn + pyval :=
  match x with
  | PDict d => inr (dict_get_default d key default)
  | _ => inl AttributeError
  end.

(** [x < 0]: numbers compare, [True] and [False] count as 1 and 0, anything
    else raises. *)
Definition py_lt_zero (x : pyval) : exn + bool :=
  match x with
  | PInt z => inr (z <? 0)%Z
  | PBool _ => inr false
  | PFloat (S754_infinity s) => inr s
  | PFloat (S754_finite s _ _) => inr s
  | PFloat _ => inr false
  | _ => inl TypeError
  end.

(** [x > 0] *)
Definition py_gt_zero (x : pyval) : exn + bool :=
  match x with
  | PInt z => inr (0 <? z)%Z
  | PBool b => inr b
  | PFloat (S754_infinity s) => inr (negb s)
  | PFloat (S754_finite s _ _) => inr (negb s)
  | PFloat _ => inr false
  | _ => inl TypeError
  end.

(** [abs(x)] *)
Definition py_abs (x : pyval) : exn + pyval :=
  match x with
  | PInt z => inr (PInt (Z.abs z))
  | PBool b => inr (PInt (if b then 1 else 0))
  | PFloat (S754_zero _) => inr (PFloat (S754_zero false))
  | PFloat (S754_infinity _) => inr (PFloat (S754_infinity false))
  | PFloat S754_nan => inr (PFloat S754_nan)
  | PFloat (S754_finite _ m e) => inr (PFloat (S754_finite false m e))
  | _ => inl TypeError
  end.

(** [x in modes] for a list of strings: an element equal to [x]. *)
Definition py_in_strings (x : pyval) (modes : list pystr) : bool :=
  match x with
  | PStr s => existsb (str_eqb s) modes
  | _ => false
  end.

(** Sequencing of expressions that may raise. *)
Definition and_then {A B} (r : exn + A) (k : A -> exn + B) : exn + B :=
  match r with
  | inl e => inl e
  | inr a => k a
  end.

(** *** [sensor.py]: the [value_fn] of the entity descriptions

    [data] is the snapshot held by the coordinator.  The two descriptions
    that divide or multiply by a float ([battery_temperature],
    [battery_capacity]) are left out. *)

Module Sensor.

(** [data.get(category, {}).get(field)] *)
Definition plain_field (category field : pystr) (data : pydict) : exn + pyval :=
  py_get (dict_get_default data category (PDict [])) field.

(** [data.get("es_mode", {}).get(field)
     if isinstance(data.get("es_mode"), dict) else None] *)
Definition es_mode_field (field : pystr) (data : pydict) : exn + pyval :=
  if is_dict (dict_get_default data (lit "es_mode") PNone) then
    py_get (dict_get_default data (lit "es_mode") (PDict [])) field
  else inr PNone.



Definition es_mode : pydict -> exn + pyval := es_mode_field (lit "mode").


(** [data.get("es_mode", {}).get("ongrid_power", 0)] *)
Definition ongrid_power_or_zero (data : pydict) : exn + pyval :=
  py_get_default (dict_get_default data (lit "es_mode") (PDict []))
    (lit "ongrid_power") (PInt 0).

(** [abs(p) if isinstance(es_mode, dict) and p < 0 else 0] *)
Definition battery_charging_power (data : pydict) : exn + pyval :=
  and_then
    (if is_dict (dict_get_default data (lit "es_mode") PNone) then
       and_then (ongrid_power_or_zero data) py_lt_zero
     else inr false)
    (fun charging =>
       if charging then and_then (ongrid_power_or_zero data) py_abs
       else inr (PInt 0)).

(** [p if isinstance(es_mode, dict) and p > 0 else 0] *)
Definition battery_discharging_power (data : pydict) : exn + pyval :=
  and_then
    (if is_dict (dict_get_default data (lit "es_mode") PNone) then
       and_then (ongrid_power_or_zero data) py_gt_zero
     else inr false)
    (fun discharging =>
       if discharging then ongrid_power_or_zero data
       else inr (PInt 0)).




(** [MarstekSensor.native_value] *)
Definition native_value (value_fn : option (pydict -> exn + pyval))
  (data : pydict) : exn + pyval :=
  match value_fn with
  | None => inr PNone
  | Some f =>
      and_then (f data)
        (fun value => if is_None value then inr PNone else inr value)
  end.

(** [MarstekSensor.available] *)
Definition available (last_update_success : bool)
  (value_fn : option (pydict -> exn + pyval)) (data : pydict) : exn + bool :=
  if last_update_success then
    and_then (native_value value_fn data)
      (fun value => inr (negb (is_None value)))
  else inr false.

End Sensor.

(** *** [binary_sensor.py] *)

Module BinarySensor.

Definition battery_charging_allowed : pydict -> exn + pyval :=
  Sensor.plain_field (lit "battery") (lit "charg_flag").

Definition battery_discharging_allowed : pydict -> exn + pyval :=
  Sensor.plain_field (lit "battery") (lit "dischrg_flag").

(** [MarstekBinarySensor.is_on]: [None] or a [bool]. *)
Definition is_on (value_fn : option (pydict -> exn + pyval))
  (data : pydict) : exn + pyval :=
  match value_fn with
  | None => inr PNone
  | Some f =>
      and_then (f data)
        (fun value =>
           if is_None value then inr PNone else inr (PBool (truthy value)))
  end.

(** [MarstekBinarySensor.available] *)
Definition available (last_update_success : bool)
  (value_fn : option (pydict -> exn + pyval)) (data : pydict) : exn + bool :=
  if last_update_success then
    and_then (is_on value_fn data)
      (fun value => inr (negb (is_None value)))
  else inr false.

End BinarySensor.

(** *** [select.py]: the properties of the mode selector *)

Module Select.

(** [MarstekESModeSelect.current_option] *)
Definition current_option (data : pydict) : pyval :=
  let es_mode_data := dict_get_default data (lit "es_mode") PNone in
  match es_mode_data with
  | PDict d =>
      let mode := dict_get_default d (lit "mode") PNone in
      if py_in_strings mode ES_MODES then mode else PNone
  | _ => PNone
  end.

(** [MarstekESModeSelect.available] *)
Definition available (last_update_success : bool) (data : pydict) : bool :=
  last_update_success && negb (is_None (current_option data)).

End Select.

(** *** [coordinator.py] and [config_flow.py] *)

(** [UpdateFailed], raised by [_async_update_data]. *)
Inductive update_failed : Type := UpdateFailed.

(** [CannotConnect] and [InvalidDevice], raised by [validate_input]. *)
Inductive validation_error : Type := CannotConnect | InvalidDevice.

(** [MarstekAPI(host, port, local_port)]: the client in play is a new one. *)
Definition new_client (host : pystr) (port local_port : Z) : M unit :=
  fun st => (Return tt, {| self := init host port local_port; world := world st |}).

Section Layers.

Variable E : Env.

(** [MarstekDataUpdateCoordinator.__init__]: the client of the entry, with
    the port of the device as local port;
    [port = entry.data.get(CONF_DEVICE_PORT, DEFAULT_PORT)]. *)
Definition coordinator_init (device_ip : pystr) (device_port : option Z) : M unit :=
  let port := match device_port with Some p => p | None => DEFAULT_PORT end in
  new_client device_ip port port.

(** [MarstekDataUpdateCoordinator._async_update_data] *)
Definition _async_update_data (fuel : nat) : M (update_failed + pyval) :=
  try_except
    (data <- get_all_data E fuel ;;
     if negb (truthy data) then ret (inl UpdateFailed)
     else ret (inr data))
    (fun err => Some (ret (inl UpdateFailed))).

(** [MarstekDataUpdateCoordinator.async_shutdown] *)
Definition async_shutdown : M unit := disconnect E.

(** The [try] statement of [validate_input], without its [finally].  Its
    three [except] clauses catch subclasses of [OSError]. *)
Definition validate_input_try (fuel : nat) : M (validation_error + pydict) :=
  try_except
    (ok <- connect E fuel ;;
     if negb ok then ret (inl CannotConnect)
     else
       device_info <- get_device_info E fuel ;;
       if negb (truthy device_info) then ret (inl InvalidDevice)
       else
         device_name <- lift (py_get_default device_info (lit "device")
                                (PStr (lit "Marstek Device"))) ;;
         ble_mac <- lift (py_get_default device_info (lit "ble_mac")
                            (PStr (lit "unknown"))) ;;
         ret (inr [(lit "title", device_name);
                   (lit "serial", ble_mac);
                   (lit "model", device_name)]))
    (fun err =>
       if is_OSError err then Some (ret (inl CannotConnect)) else None).

(** [validate_input] of the config flow, on the host and port of a form
    that passed its schema. *)
Definition validate_input (fuel : nat) (host : pystr) (device_port : option Z)
  : M (validation_error + pydict) :=
  let port := match device_port with Some p => p | None => DEFAULT_PORT end in
  let local_port := port in
  new_client host port local_port ;;
  try_finally (validate_input_try fuel) (disconnect E).

End Layers.

(** ** Concrete environments

    Used to run the client on examples: every socket call succeeds unless
    stated otherwise, the device's answers are given per socket call, and
    [json.loads] is a table of the texts the examples use. *)

Module Bench.

(** JSON text written with apostrophes for the double quotes. *)
Fixpoint json_text (s : string) : string :=
  match s with
  | EmptyString => EmptyString
  | String c s' =>
      String (if Ascii.eqb c "'"%char then Json.dquote else c) (json_text s')
  end.

(** [decode] on ASCII bytes. *)
Definition ascii_decode (data : string) : pystr := lit data.

Fixpoint loads_table (table : list (string * pyval)) (s : pystr) : exn + pyval :=
  match table with
  | [] => inl JSONDecodeError
  | (text, v) :: table' =>
      if str_eqb (lit (json_text text)) s then inr v else loads_table table' s
  end.

Definition device_addr : pystr * Z := (lit "192.168.1.50", 30000%Z).

(** The device answers the socket call number [t] with [answers t]. *)
Definition env (answers : nat -> exn + string) (table : list (string * pyval)) : Env :=
  {| os_socket := fun _ => None;
     os_settimeout := fun _ => None;
     os_bind := fun _ => None;
     os_getsockname := fun _ => inr ([], 30000%Z);
     os_sendto := fun _ => None;
     os_recvfrom := fun t =>
       match answers t with
       | inl e => inl e
       | inr data => inr (json_text data, device_addr)
       end;
     os_close := fun _ => None;
     bytes_decode := ascii_decode;
     json_loads := loads_table table;
     float_repr := fun _ => "0.0" |}.

Definition silent : nat -> exn + string := fun _ => inl TimeoutError.

Definition always (data : string) : nat -> exn + string := fun _ => inr data.

Definition world0 : World :=
  {| clock := 0; next_sock := 0; open_socks := []; sent := []; log := [];
     refresh_requests := 0 |}.

(** A client just constructed. *)
Definition fresh : State :=
  {| self := init (lit "192.168.1.50") 30000 30000; world := world0 |}.

(** A client that holds socket 0, bound and open. *)
Definition connected : State :=
  {| self := {| host := lit "192.168.1.50"; port := 30000; local_port := 30000;
                _sock := Some 0; _connected := true;
                _timeout := DEFAULT_TIMEOUT |};
     world := {| clock := 3; next_sock := 1; open_socks := [0]; sent := [];
                 log := []; refresh_requests := 0 |} |}.

End Bench.

(** Replies and devices of the examples. *)

Definition reply_table : list (string * pyval) :=
  [("{'id':1,'result':{'set_result':true}}",
    PDict [(lit "id", PInt 1);
           (lit "result", PDict [(lit "set_result", PBool true)])]);
   ("{'id':1,'result':5}",
    PDict [(lit "id", PInt 1); (lit "result", PInt 5)]);
   ("{'id':1,'error':{'code':-32601}}",
    PDict [(lit "id", PInt 1);
           (lit "error", PDict [(lit "code", PInt (-32601))])]);
   ("{'set_result':true}",
    PDict [(lit "set_result", PBool true)]);
   ("[1]", PList [PInt 1])].

(** A device that acknowledges every request. *)
Definition acknowledging : Env :=
  Bench.env (Bench.always "{'id':1,'result':{'set_result':true}}") reply_table.

(** A device that answers [Marstek.GetDevice]. *)
Definition answering : Env :=
  Bench.env (Bench.always "{'id':1,'result':{'device':'VenusE 3.0','ver':139}}")
      [("{'id':1,'result':{'device':'VenusE 3.0','ver':139}}",
        PDict [(lit "id", PInt 1);
               (lit "result", PDict [(lit "device", PStr (lit "VenusE 3.0"));
                                     (lit "ver", PInt 139)])])].

(** ** Vocabulary of the statements *)

(** The params a request carries: the caller's when there are some, else
    the default. *)
Definition effective_params (params : option pydict) : pydict :=
  match params with
  | Some (x :: d) => x :: d
  | _ => [(lit "ble_mac", PStr (lit "0"))]
  end.

Definition request_of (command : pystr) (params : option pydict) : pydict :=
  [(lit "id", PInt 1); (lit "method", PStr command);
   (lit "params", PDict (effective_params params))].

(** [st'] differs from [st] by log records only. *)
Definition only_log (st st' : State) : Prop :=
  self st' = self st /\
  clock (world st') = clock (world st) /\
  next_sock (world st') = next_sock (world st) /\
  open_socks (world st') = open_socks (world st) /\
  sent (world st') = sent (world st) /\
  refresh_requests (world st') = refresh_requests (world st).

(** The client attributes and the sockets are as before. *)
Definition frame (st st' : State) : Prop :=
  self st' = self st /\
  next_sock (world st') = next_sock (world st) /\
  open_socks (world st') = open_socks (world st) /\
  refresh_requests (world st') = refresh_requests (world st).

(** After [st] the client holds a socket created since, and the socket it
    held in [st], if any, is released; nothing else changed. *)
Definition holds_created (st st' : State) : Prop :=
  _sock (self st') = Some (next_sock (world st)) /\
  host (self st') = host (self st) /\
  port (self st') = port (self st) /\
  local_port (self st') = local_port (self st) /\
  _timeout (self st') = _timeout (self st) /\
  next_sock (world st') = S (next_sock (world st)) /\
  open_socks (world st') =
    release (_sock (self st)) (Some (next_sock (world st)))
      (open_socks (world st) ++ [next_sock (world st)]) /\
  refresh_requests (world st') = refresh_requests (world st).

(** The same on a client that held no socket in [st]: the new socket is
    open beside the ones that were. *)
Definition holds_new (st st' : State) : Prop :=
  _sock (self st') = Some (next_sock (world st)) /\
  host (self st') = host (self st) /\
  port (self st') = port (self st) /\
  local_port (self st') = local_port (self st) /\
  _timeout (self st') = _timeout (self st) /\
  next_sock (world st') = S (next_sock (world st)) /\
  open_socks (world st') = open_socks (world st) ++ [next_sock (world st)] /\
  refresh_requests (world st') = refresh_requests (world st).

(** What a method that swallows exceptions makes of an outcome. *)
Definition value_or_none (o : outcome pyval) : pyval :=
  match o with
  | Return v => v
  | _ => PNone
  end.

(** The state in which [_send_command], finding no socket, calls [connect]. *)
Definition connecting (st : State) : State :=
  snd (logging DEBUG "No active socket, attempting to connect..." st).

(** [x is True] for the value of [d.get(key)]. *)
Definition field_is_True (d : pydict) (key : pystr) : bool :=
  match dict_get d key with
  | Some (PBool true) => true
  | _ => false
  end.

(** The sockets open are exactly the one the client holds. *)
Definition sock_inv (st : State) : Prop :=
  open_socks (world st) =
  match _sock (self st) with
  | Some fd => [fd]
  | None => []
  end.

(** The socket held was created before: the next one is another socket. *)
Definition sock_created (st : State) : Prop :=
  forall fd, _sock (self st) = Some fd -> fd < next_sock (world st).

Inductive call : Type := Connect | Disconnect.

(** In [E] every [getsockname] and every [sendto] succeeds. *)
Definition sends_succeed (E : Env) : Prop :=
  (forall t, exists a, os_getsockname E t = inr a) /\
  (forall t, os_sendto E t = None).

(** In [E] no datagram ever arrives. *)
Definition no_reply (E : Env) : Prop :=
  forall t, exists e, os_recvfrom E t = inl e.

(** Where a reader of JSON text stands: outside every string literal,
    inside one, or after a backslash inside one. *)
Inductive lexer : Type := Outside | Inside | Escaped.

Definition lex_step (q : lexer) (c : ascii) : lexer :=
  match q with
  | Outside => if Ascii.eqb c Json.dquote then Inside else Outside
  | Inside =>
      if Ascii.eqb c Json.dquote then Outside
      else if Ascii.eqb c "\" then Escaped
      else Inside
  | Escaped => Inside
  end.

Fixpoint lex (q : lexer) (s : string) : lexer :=
  match s with
  | EmptyString => q
  | String c s' => lex (lex_step q c) s'
  end.

(** JSON whitespace: space, tab, line feed, carriage return. *)
Definition is_space (c : ascii) : bool :=
  Ascii.eqb c " " || Ascii.eqb c "009" || Ascii.eqb c "010" || Ascii.eqb c "013".

(** No whitespace outside the string literals of [s], read from [q]. *)
Fixpoint no_space_outside (q : lexer) (s : string) : bool :=
  match s with
  | EmptyString => true
  | String c s' =>
      match q with
      | Outside => negb (is_space c)
      | _ => true
      end && no_space_outside (lex_step q c) s'
  end.

(** A JSON text without whitespace between its tokens. *)
Definition compact (s : string) : Prop :=
  lex Outside s = Outside /\ no_space_outside Outside s = true.

(** Text that can stand inside a string literal: read from [Inside] it
    ends [Inside], and none of it is outside. *)
Definition literal (s : string) : Prop :=
  lex Inside s = Inside /\ no_space_outside Inside s = true.

(** Text without quotes and whitespace. *)
Fixpoint plain (s : string) : bool :=
  match s with
  | EmptyString => true
  | String c s' => negb (Ascii.eqb c Json.dquote) && negb (is_space c) && plain s'
  end.

Section Vocabulary.

Variable E : Env.

(** The datagram that carries the request for [command]. *)
Definition request_datagram (st : State) (fd : nat) (command : pystr)
  (params : option pydict) : datagram :=
  {| dg_sock := fd;
     dg_payload := encode_request E (request_of command params);
     dg_host := host (self st);
     dg_port := port (self st) |}.

(** [_send_command] with fuel [S n] reaches its [try] statement in [st1]:
    at once when a socket is held, after a successful [connect]
    otherwise. *)
Definition enters_try (n : nat) (st st1 : State) : Prop :=
  (_sock (self st) <> None /\ st1 = st) \/
  (_sock (self st) = None /\
   connect E n (connecting st) = (Return true, st1)).

(** From [st] the request goes out and the datagram [data] comes back. *)
Definition exchange (st : State) (data : string) : Prop :=
  _sock (self st) <> None /\
  (exists a, os_getsockname E (clock (world st)) = inr a) /\
  os_sendto E (S (clock (world st))) = None /\
  (exists addr, os_recvfrom E (S (S (clock (world st)))) = inr (data, addr)).

(** The bytes read from the datagram [data] parse as [response]. *)
Definition parses (data : string) (response : pyval) : Prop :=
  json_loads E (bytes_decode E (substring 0 4096 data)) = inr response.

(** Something goes wrong in the [try] statement entered in [st]. *)
Inductive fault (st : State) : Prop :=
| fault_getsockname e :
    os_getsockname E (clock (world st)) = inl e -> fault st
| fault_sendto e :
    os_sendto E (S (clock (world st))) = Some e -> fault st
| fault_recvfrom e :
    os_recvfrom E (S (S (clock (world st)))) = inl e -> fault st
| fault_loads data e :
    exchange st data ->
    json_loads E (bytes_decode E (substring 0 4096 data)) = inl e ->
    fault st
| fault_dispatch data response e s :
    exchange st data -> parses data response ->
    fst (dispatch response s) = Raise e ->
    fault st.

(** The state after a sequence of [connect()] and [disconnect()] calls. *)
Fixpoint run_calls (fuel : nat) (calls : list call) (st : State) : State :=
  match calls with
  | [] => st
  | Connect :: calls' => run_calls fuel calls' (snd (connect E fuel st))
  | Disconnect :: calls' => run_calls fuel calls' (snd (disconnect E st))
  end.

(** [disconnect()] called [k] times in a row. *)
Fixpoint disconnect_times (k : nat) : M unit :=
  match k with
  | O => ret tt
  | S k' => disconnect E ;; disconnect_times k'
  end.

End Vocabulary.

Arguments fault_getsockname {E st} e _.
Arguments fault_sendto {E st} e _.
Arguments fault_recvfrom {E st} e _.

(** *** Vocabulary of the further statements *)

(** [connect] gave up before its probe: it returns [False], has sent
    nothing and has not touched [_connected]. *)
Definition gave_up (st st' : State) (b : bool) : Prop :=
  b = false /\
  sent (world st') = sent (world st) /\
  _connected (self st') = _connected (self st).

(** [connect] ran [probe] from a state at clock [k] with log [lg], and
    returns the truth value of what the probe returned. *)
Definition probed (probe : M pyval) (st st' : State) (b : bool)
  (k : nat) (lg : list (level * string)) : Prop :=
  _connected (self st') = true /\
  exists s v s',
    probe s = (Return v, s') /\
    clock (world s) = k /\
    log (world s) = lg /\
    _sock (self s) = Some (next_sock (world st)) /\
    sent (world s) = sent (world st) /\
    sent (world st') = sent (world s') /\
    b = truthy v.

(** [connect] called in [st] gets its socket created, configured and
    bound, by the first [bind] or after an [OSError] by the second, so that
    its probe starts at tick [k]. *)
Definition bound_at (E : Env) (st : State) (k : nat) : Prop :=
  os_socket E (clock (world st)) = None /\
  os_settimeout E (S (clock (world st))) = None /\
  ((os_bind E (S (S (clock (world st)))) = None /\
    k = S (S (S (clock (world st))))) \/
   (exists e,
      os_bind E (S (S (clock (world st)))) = Some e /\
      is_OSError e = true /\
      os_bind E (S (S (S (clock (world st))))) = None /\
      k = S (S (S (S (clock (world st))))))).

(** One call of the client: nothing happened to the attributes and the
    sockets, or the call found no socket and now holds a new one. *)
Definition step (st st' : State) : Prop :=
  frame st st' \/ (_sock (self st) = None /\ holds_new st st').

(** The four modes of [set_es_mode], each with the key of its
    sub-configuration and the default of that key. *)
Definition mode_table : list (pystr * (pystr * pyval)) :=
  [(lit "Auto", (lit "auto_cfg", PDict [(lit "enable", PInt 1)]));
   (lit "AI", (lit "ai_cfg", PDict [(lit "enable", PInt 1)]));
   (lit "Manual",
    (lit "manual_cfg",
     PDict [(lit "time_num", PInt 1);
            (lit "start_time", PStr (lit "08:30"));
            (lit "end_time", PStr (lit "20:30"));
            (lit "week_set", PInt 127);
            (lit "power", PInt 100);
            (lit "enable", PInt 1)]));
   (lit "Passive",
    (lit "passive_cfg",
     PDict [(lit "power", PInt 100); (lit "cd_time", PInt 300)]))].

(** [n] copies of the character [c]. *)
Fixpoint padding (n : nat) (c : ascii) : string :=
  match n with
  | O => EmptyString
  | S n' => String c (padding n' c)
  end.

(** What [validate_input] makes of the answer to its [get_device_info]. *)
Definition validation_of (device_info : pyval)
  : outcome (validation_error + pydict) :=
  if truthy device_info then
    match device_info with
    | PDict d =>
        Return (inr [(lit "title",
                      dict_get_default d (lit "device") (PStr (lit "Marstek Device")));
                     (lit "serial",
                      dict_get_default d (lit "ble_mac") (PStr (lit "unknown")));
                     (lit "model",
                      dict_get_default d (lit "device") (PStr (lit "Marstek Device")))])
    | _ => Raise AttributeError
    end
  else Return (inl InvalidDevice).

(** The state in which [validate_input] starts its client. *)
Definition registration (host : pystr) (device_port : option Z) (st : State) : State :=
  {| self := init host
               (match device_port with Some p => p | None => DEFAULT_PORT end)
               (match device_port with Some p => p | None => DEFAULT_PORT end);
     world := world st |}.

(** Further devices of the examples. *)

(** The configured local port is taken: the first [bind] fails, every
    other socket call succeeds. *)
Definition port_in_use : Env :=
  {| os_socket := os_socket answering;
     os_settimeout := os_settimeout answering;
     os_bind := fun t => if Nat.eqb t 2 then Some OSError else None;
     os_getsockname := os_getsockname answering;
     os_sendto := os_sendto answering;
     os_recvfrom := os_recvfrom answering;
     os_close := os_close answering;
     bytes_decode := bytes_decode answering;
     json_loads := json_loads answering;
     float_repr := float_repr answering |}.

(** A device that misses the probe of the first [connect()] (the
    [recvfrom] of tick 5 times out) and answers from then on. *)
Definition late : Env :=
  {| os_socket := os_socket answering;
     os_settimeout := os_settimeout answering;
     os_bind := os_bind answering;
     os_getsockname := os_getsockname answering;
     os_sendto := os_sendto answering;
     os_recvfrom := fun t =>
       if Nat.leb t 5 then inl TimeoutError else os_recvfrom answering t;
     os_close := os_close answering;
     bytes_decode := bytes_decode answering;
     json_loads := json_loads answering;
     float_repr := float_repr answering |}.

(** No socket can be created. *)
Definition no_socket : Env :=
  {| os_socket := fun _ => Some OSError;
     os_settimeout := os_settimeout answering;
     os_bind := os_bind answering;
     os_getsockname := os_getsockname answering;
     os_sendto := os_sendto answering;
     os_recvfrom := os_recvfrom answering;
     os_close := os_close answering;
     bytes_decode := bytes_decode answering;
     json_loads := json_loads answering;
     float_repr := float_repr answering |}.

(** A JSON array followed by blanks, 4096 bytes in all. *)
Definition long_reply : string := ("[1]" ++ padding 4093 " ")%string.

(** A device whose datagrams are longer than 4096 bytes. *)
Definition oversized : Env :=
  Bench.env (Bench.always (long_reply ++ "{'id':1,'result':{'set_result':true}}")%string)
    [(long_reply, PList [PInt 1])].

(** * Properties *)

(** ** Tactics and basic facts *)

Arguments lit : simpl never.
Arguments encode_request : simpl never.

Lemma str_eqb_eq (a b : pystr) : str_eqb a b = true <-> a = b.
Proof.
  revert b; induction a as [|x a IH]; intros [|y b]; simpl; split; intros H;
    try reflexivity; try discriminate.
  - apply andb_true_iff in H as [Hx Hab].
    apply N.eqb_eq in Hx. apply IH in Hab. now subst.
  - injection H as -> ->. rewrite N.eqb_refl. simpl. now apply IH.
Qed.

Lemma build_request_eq command params st :
  build_request command params st = (Return (request_of command params), st).
Proof. destruct params as [[|x d]|]; reflexivity. Qed.

Lemma only_log_refl st : only_log st st.
Proof. repeat split. Qed.

Lemma only_log_logging lvl fmt st : only_log st (snd (logging lvl fmt st)).
Proof. repeat split. Qed.

Ltac destruct_innermost x :=
  lazymatch x with
  | context [match ?y with _ => _ end] => destruct_innermost y
  | _ => destruct x eqn:?
  end.

Ltac case_split :=
  match goal with
  | |- context [match ?x with _ => _ end] => destruct_innermost x
  end.

Ltac unfold_monad :=
  cbv beta iota zeta delta
    [try_except try_finally bind ret raise lift logging modify_world get_self
     set_sock set_connected with_sock socket_socket sock_settimeout sock_bind
     sock_getsockname sock_sendto sock_recvfrom sock_close next_tick out_of_fuel] in *.

Ltac run :=
  repeat (simpl;
          try match goal with
              | H : ?x = _ |- context [match ?x with _ => _ end] => rewrite H
              end).

(** ** The serialization is compact *)

Lemma lex_app q a b : lex q (a ++ b)%string = lex (lex q a) b.
Proof. revert q; induction a as [|c a IH]; intros q; simpl; [reflexivity|apply IH]. Qed.

Lemma no_space_outside_app q a b :
  no_space_outside q (a ++ b)%string =
  no_space_outside q a && no_space_outside (lex q a) b.
Proof.
  revert q; induction a as [|c a IH]; intros q; simpl; [reflexivity|].
  now rewrite IH, andb_assoc.
Qed.

Lemma compact_app a b : compact a -> compact b -> compact (a ++ b)%string.
Proof.
  intros [La Na] [Lb Nb]. split.
  - now rewrite lex_app, La.
  - now rewrite no_space_outside_app, Na, La.
Qed.

Lemma hex_digit_plain n :
  Ascii.eqb (Json.hex_digit n) Json.dquote = false /\
  Ascii.eqb (Json.hex_digit n) "\" = false.
Proof.
  destruct n as [|p]; [split; reflexivity|].
  do 5 (try (destruct p as [p|p|]; try (split; reflexivity))).
Qed.

Lemma literal_app a b : literal a -> literal b -> literal (a ++ b)%string.
Proof.
  intros [La Na] [Lb Nb]. split.
  - now rewrite lex_app, La.
  - now rewrite no_space_outside_app, Na, La.
Qed.

Lemma literal_u_escape n : literal (Json.u_escape n).
Proof.
  unfold Json.u_escape.
  generalize (hex_digit_plain (N.land (N.shiftr n 12) 15))
             (hex_digit_plain (N.land (N.shiftr n 8) 15))
             (hex_digit_plain (N.land (N.shiftr n 4) 15))
             (hex_digit_plain (N.land n 15)).
  generalize (Json.hex_digit (N.land (N.shiftr n 12) 15))
             (Json.hex_digit (N.land (N.shiftr n 8) 15))
             (Json.hex_digit (N.land (N.shiftr n 4) 15))
             (Json.hex_digit (N.land n 15)).
  intros h1 h2 h3 h4 [A1 B1] [A2 B2] [A3 B3] [A4 B4].
  unfold literal. simpl.
  rewrite A1, B1; simpl. rewrite A2, B2; simpl.
  rewrite A3, B3; simpl. rewrite A4, B4; simpl.
  split; reflexivity.
Qed.

Lemma ascii_of_N_eqb c a :
  (c < 256)%N -> (c =? N_of_ascii a)%N = false ->
  Ascii.eqb (ascii_of_N c) a = false.
Proof.
  intros Hc Hne. apply Ascii.eqb_neq. intros Heq.
  apply N.eqb_neq in Hne. apply Hne.
  rewrite <- Heq. now rewrite N_ascii_embedding.
Qed.

Lemma literal_escape_char c : literal (Json.escape_char c).
Proof.
  unfold Json.escape_char.
  destruct (c =? 34)%N eqn:H34; [split; reflexivity|].
  destruct (c =? 92)%N eqn:H92; [split; reflexivity|].
  destruct (c =? 8)%N; [split; reflexivity|].
  destruct (c =? 12)%N; [split; reflexivity|].
  destruct (c =? 10)%N; [split; reflexivity|].
  destruct (c =? 13)%N; [split; reflexivity|].
  destruct (c =? 9)%N; [split; reflexivity|].
  destruct ((32 <=? c)%N && (c <=? 126)%N) eqn:Hp.
  - apply andb_true_iff in Hp as [_ Hle]. apply N.leb_le in Hle.
    assert (Hc : (c < 256)%N) by lia.
    unfold literal. simpl. unfold Json.dquote.
    rewrite (ascii_of_N_eqb c "034" Hc H34), (ascii_of_N_eqb c "\" Hc H92).
    split; reflexivity.
  - destruct (c <? 65536)%N.
    + apply literal_u_escape.
    + apply literal_app; apply literal_u_escape.
Qed.

Lemma literal_escape s : literal (Json.escape s).
Proof.
  induction s as [|c s IH]; simpl.
  - split; reflexivity.
  - apply literal_app; [apply literal_escape_char|exact IH].
Qed.

Lemma compact_quote s : compact (Json.quote s).
Proof.
  destruct (literal_escape s) as [L N].
  unfold compact, Json.quote. simpl.
  rewrite lex_app, no_space_outside_app, L, N. simpl.
  split; reflexivity.
Qed.

Lemma compact_plain s : plain s = true -> compact s.
Proof.
  unfold compact. induction s as [|c s IH]; simpl; [now split|].
  intros H. apply andb_true_iff in H as [H Hs].
  apply andb_true_iff in H as [Hq Hw].
  apply negb_true_iff in Hq. rewrite Hq, Hw. simpl. now apply IH.
Qed.

Lemma plain_uint d : plain (NilEmpty.string_of_uint d) = true.
Proof. induction d; simpl; auto. Qed.

Lemma compact_int_repr z : compact (Json.int_repr z).
Proof.
  apply compact_plain. unfold Json.int_repr, NilZero.string_of_int.
  destruct (Z.to_int z) as [d|d]; unfold NilZero.string_of_uint.
  - destruct d; try reflexivity; simpl; apply plain_uint.
  - destruct d; try reflexivity; simpl; apply plain_uint.
Qed.

Section Compact.

Variable float_repr : spec_float -> string.
Hypothesis float_repr_plain : forall f, plain (float_repr f) = true.

Lemma compact_dumps v : compact (Json.dumps float_repr "," ":" v).
Proof.
  revert v. fix IH 1. intros v.
  destruct v as [ | [|] | z | f | s | l | d].
  - now apply compact_plain.
  - now apply compact_plain.
  - now apply compact_plain.
  - apply compact_int_repr.
  - apply compact_plain, float_repr_plain.
  - apply compact_quote.
  - cbn [Json.dumps].
    match goal with |- compact (_ ++ ?f l ++ _)%string => set (items := f) end.
    apply (compact_app "["); [now apply compact_plain|].
    apply compact_app; [|now apply compact_plain].
    induction l as [|x l IHl]; [now apply compact_plain|].
    destruct l as [|y l].
    + change (compact (Json.dumps float_repr "," ":" x)). apply IH.
    + change (compact (Json.dumps float_repr "," ":" x ++ "," ++ items (y :: l))%string).
      apply compact_app; [apply IH|].
      apply (compact_app ","); [now apply compact_plain|exact IHl].
  - cbn [Json.dumps].
    match goal with |- compact (_ ++ ?f d ++ _)%string => set (members := f) end.
    apply (compact_app "{"); [now apply compact_plain|].
    apply compact_app; [|now apply compact_plain].
    induction d as [|[k x] d IHd]; [now apply compact_plain|].
    destruct d as [|y d].
    + change (compact (Json.quote k ++ ":" ++ Json.dumps float_repr "," ":" x)%string).
      apply compact_app; [apply compact_quote|].
      apply (compact_app ":"); [now apply compact_plain|apply IH].
    + change (compact (Json.quote k ++ ":" ++ Json.dumps float_repr "," ":" x ++
                       "," ++ members (y :: d))%string).
      apply compact_app; [apply compact_quote|].
      apply (compact_app ":"); [now apply compact_plain|].
      apply compact_app; [apply IH|].
      apply (compact_app ","); [now apply compact_plain|exact IHd].
Qed.

End Compact.

Lemma string_app_assoc (a b c : string) :
  ((a ++ b) ++ c)%string = (a ++ (b ++ c))%string.
Proof. induction a as [|x a IH]; simpl; [reflexivity|now rewrite IH]. Qed.

(** ** The [try] statement of [_send_command] *)

Section TryStatement.

Variable E : Env.

Lemma dispatch_total response st :
  exists o st', dispatch response st = (o, st') /\ o <> OutOfFuel /\ only_log st st'.
Proof.
  unfold dispatch, bind, lift, py_contains, py_getitem, py_keys, dict_mem.
  destruct response; simpl;
    repeat (case_split; simpl);
    eexists _, _; (split; [reflexivity|split; [discriminate|repeat split]]).
Qed.

Lemma dispatch_object (obj : pydict) st :
  fst (dispatch (PDict obj) st) =
  match dict_get obj (lit "result") with
  | Some (PDict r) => Return (PDict r)
  | Some _ => Raise AttributeError
  | None =>
      match dict_get obj (lit "error") with
      | Some _ => Return PNone
      | None => Return (PDict obj)
      end
  end.
Proof.
  unfold dispatch, bind, lift, py_contains, py_getitem, py_keys, dict_mem.
  simpl. repeat (case_split; simpl); reflexivity.
Qed.


Lemma send_command_try_cases command params st :
  exists v st',
    send_command_try E command params st = (Return v, st') /\
    frame st st' /\
    match _sock (self st) with
    | None => v = PNone /\ sent (world st') = sent (world st)
    | Some fd =>
        match os_getsockname E (clock (world st)) with
        | inl _ => v = PNone /\ sent (world st') = sent (world st)
        | inr _ =>
            match os_sendto E (S (clock (world st))) with
            | Some _ => v = PNone /\ sent (world st') = sent (world st)
            | None =>
                sent (world st') =
                  sent (world st) ++ [request_datagram E st fd command params] /\
                match os_recvfrom E (S (S (clock (world st)))) with
                | inl _ => v = PNone
                | inr (data, _) =>
                    match json_loads E (bytes_decode E (substring 0 4096 data)) with
                    | inl _ => v = PNone
                    | inr response =>
                        exists s, v = value_or_none (fst (dispatch response s))
                    end
                end
            end
        end
    end.
Proof.
  unfold send_command_try.
  unfold try_except at 1. unfold bind at 1. rewrite build_request_eq.
  unfold_monad.
  destruct (_sock (self st)) as [fd|] eqn:Hs; run.
  2: { eexists _, _; split; [reflexivity|]. repeat split. }
  destruct (os_getsockname E (clock (world st))) as [e|a] eqn:Hg; run.
  { destruct e; eexists _, _; (split; [reflexivity|]); repeat split. }
  destruct (os_sendto E (S (clock (world st)))) as [e|] eqn:Hst; run.
  { destruct e; eexists _, _; (split; [reflexivity|]); repeat split. }
  destruct (os_recvfrom E _) as [e|[data addr]] eqn:Hr; run.
  { destruct e; eexists _, _; (split; [reflexivity|]); repeat split. }
  destruct (json_loads E _) as [e|response] eqn:Hj; run.
  { destruct e; eexists _, _; (split; [reflexivity|]); repeat split. }
  match goal with |- context [dispatch ?r ?s] =>
     pose proof (dispatch_total r s) as (o & s' & Hd & Ho & Hl);
     assert (Hv : o = fst (dispatch r s)) by (now rewrite Hd);
     rewrite Hd
  end.
  destruct Hl as (H1 & H2 & H3 & H4 & H5 & H6); simpl in H1, H3, H4, H5, H6.
  destruct o as [v|e|]; [| |now elim Ho].
  - eexists _, _; split; [reflexivity|].
    split; [repeat split; assumption|].
    split; [assumption|]. eexists. rewrite <- Hv. reflexivity.
  - destruct e; eexists _, _; (split; [reflexivity|]);
    (split; [repeat split; assumption|]);
    (split; [assumption|]); eexists; rewrite <- Hv; reflexivity.
Qed.

End TryStatement.

(** ** [connect] *)

Section Connect.

Variable E : Env.

Lemma holds_created_new st st' :
  _sock (self st) = None -> holds_created st st' -> holds_new st st'.
Proof.
  intros Hs (H1 & H2 & H3 & H4 & H5 & H6 & H7 & H8).
  rewrite Hs in H7. repeat split; assumption.
Qed.

Ltac finish_connect :=
  eexists _, _; (split; [reflexivity|]);
  first [left; repeat split; simpl; congruence
        |right; split; [repeat split; simpl; congruence|left; split; reflexivity]].

Lemma connect_with_cases (probe : M pyval) st :
  (forall s, _sock (self s) <> None ->
             exists v s', probe s = (Return v, s') /\ frame s s') ->
  exists b st',
    connect_with E probe st = (Return b, st') /\
    ((b = false /\ frame st st' /\ sent (world st') = sent (world st) /\
      os_socket E (clock (world st)) <> None) \/
     (holds_created st st' /\
      ((b = false /\ sent (world st') = sent (world st)) \/
       (exists s v s',
          probe s = (Return v, s') /\
          _sock (self s) = Some (next_sock (world st)) /\
          sent (world s) = sent (world st) /\
          sent (world st') = sent (world s') /\
          b = truthy v)))).
Proof.
  intros Hprobe.
  unfold connect_with. unfold_monad.
  destruct (os_socket E (clock (world st))) as [e|] eqn:Hsock; run.
  { destruct e; run; finish_connect. }
  destruct (os_settimeout E _) as [e|] eqn:Htm; run.
  { destruct e; run; finish_connect. }
  assert (Hgo : forall s : State,
    _sock (self s) = Some (next_sock (world st)) ->
    exists v s', probe s = (Return v, s') /\ frame s s').
  { intros s Hs. apply Hprobe. congruence. }
  destruct (os_bind E (S (S (clock (world st))))) as [e|] eqn:Hb; run.
  - destruct e; run; try finish_connect;
      (destruct (os_bind E (S (S (S (clock (world st)))))) as [e|] eqn:Hb2; run;
       [destruct e; run; finish_connect|]);
      match goal with |- context [probe ?s] =>
        destruct (Hgo s eq_refl) as (v & s' & Hp & H1 & H2 & H3 & H4);
        rewrite Hp; simpl in H1, H2, H3, H4 end;
      destruct (truthy v) eqn:Hv; run; eexists _, _; (split; [reflexivity|]);
      right; (split; [repeat split; simpl; try congruence; try (rewrite H1; reflexivity)|]);
      right; eexists _, v, s'; (split; [exact Hp|]); repeat split; auto.
  - match goal with |- context [probe ?s] =>
           destruct (Hgo s eq_refl) as (v & s' & Hp & H1 & H2 & H3 & H4);
           rewrite Hp; simpl in H1, H2, H3, H4 end.
    destruct (truthy v) eqn:Hv; run; eexists _, _; (split; [reflexivity|]);
      right; (split; [repeat split; simpl; try congruence; try (rewrite H1; reflexivity)|]);
      right; eexists _, v, s'; (split; [exact Hp|]); repeat split; auto.
Qed.

Lemma send_command_held n command params st :
  _sock (self st) <> None ->
  _send_command E (S n) command params st = send_command_try E command params st.
Proof.
  intros H. simpl. unfold bind, get_self.
  destruct (_sock (self st)); [reflexivity|now elim H].
Qed.

Lemma probe_ok n :
  forall s, _sock (self s) <> None ->
    exists v s', get_device_info E (S n) s = (Return v, s') /\ frame s s'.
Proof.
  intros s Hs. unfold get_device_info. rewrite send_command_held by assumption.
  destruct (send_command_try_cases E CMD_GET_DEVICE None s) as (v & s' & H & Hf & _).
  eauto.
Qed.


Lemma connect_with_ext (p1 p2 : M pyval) st :
  (forall s, _sock (self s) <> None -> p1 s = p2 s) ->
  connect_with E p1 st = connect_with E p2 st.
Proof.
  intros Hext.
  unfold connect_with. unfold_monad.
  destruct (os_socket E (clock (world st))) as [e|] eqn:Hsock; run;
    [reflexivity|].
  destruct (os_settimeout E _) as [e|] eqn:Htm; run; [reflexivity|].
  destruct (os_bind E (S (S (clock (world st))))) as [e|] eqn:Hb; run.
  - destruct e; run; try reflexivity;
      (destruct (os_bind E (S (S (S (clock (world st)))))) as [e|] eqn:Hb2; run;
       [reflexivity|]);
      match goal with |- context [p1 ?s] =>
        rewrite (Hext s) by (simpl; discriminate) end; reflexivity.
  - match goal with |- context [p1 ?s] =>
      rewrite (Hext s) by (simpl; discriminate) end; reflexivity.
Qed.

End Connect.

(** ** [_send_command] *)

Section SendCommand.

Variable E : Env.

Lemma dispatch_outcome_state response s1 s2 :
  fst (dispatch response s1) = fst (dispatch response s2).
Proof.
  unfold dispatch, bind, lift, py_contains, py_getitem, py_keys, dict_mem.
  destruct response; simpl; repeat (case_split; simpl); reflexivity.
Qed.

Lemma send_command_unfold n command params st :
  _send_command E (S n) command params st =
  match _sock (self st) with
  | Some _ => send_command_try E command params st
  | None =>
      match connect E n (connecting st) with
      | (Return ok, st1) =>
          (if negb ok then
             logging ERROR "Cannot send command '%s': connection failed" ;;
             ret PNone
           else send_command_try E command params) st1
      | (Raise e, st1) => (Raise e, st1)
      | (OutOfFuel, st1) => (OutOfFuel, st1)
      end
  end.
Proof.
  cbn [_send_command]. unfold bind at 1. unfold get_self.
  destruct (_sock (self st)); reflexivity.
Qed.

Lemma send_command_enters n command params st st1 :
  enters_try E n st st1 ->
  _send_command E (S n) command params st = send_command_try E command params st1.
Proof.
  intros [[Hheld ->]|[Hnone Hconn]].
  - now apply send_command_held.
  - rewrite send_command_unfold, Hnone, Hconn. reflexivity.
Qed.

Lemma connect_returns n st :
  exists b st', connect E (S n) st = (Return b, st').
Proof.
  destruct (connect_with_cases E (get_device_info E (S n)) st (probe_ok E n))
    as (b & st1 & Hc & _).
  eauto.
Qed.

Lemma send_command_returns n command params st :
  exists v st', _send_command E (S (S n)) command params st = (Return v, st').
Proof.
  rewrite send_command_unfold.
  destruct (_sock (self st)) as [fd|] eqn:Hs.
  - destruct (send_command_try_cases E command params st) as (v & st' & H & _).
    eauto.
  - destruct (connect_returns n (connecting st)) as (b & st1 & ->).
    destruct b; simpl.
    + destruct (send_command_try_cases E command params st1) as (v & st' & H & _).
      eauto.
    + eexists _, _; reflexivity.
Qed.

Lemma send_command_fuel n m command params st :
  _send_command E (S (S n)) command params st =
  _send_command E (S (S m)) command params st.
Proof.
  rewrite !send_command_unfold.
  destruct (_sock (self st)) as [fd|] eqn:Hs; [reflexivity|].
  unfold connect.
  rewrite (connect_with_ext E (get_device_info E (S n)) (get_device_info E (S m))).
  - reflexivity.
  - intros s Hheld. unfold get_device_info.
    now rewrite !send_command_held.
Qed.

(** A fault in the [try] statement yields [None]. *)
Lemma send_command_try_fault command params st :
  fault E st -> fst (send_command_try E command params st) = Return PNone.
Proof.
  intros Hf.
  destruct (send_command_try_cases E command params st) as (v & st' & -> & _ & H).
  simpl.
  destruct (_sock (self st)) as [fd|]; [|now destruct H as [-> _]].
  destruct Hf as [e He|e He|e He|data e (_ & _ & Hsend & addr & Hrecv) He
                 |data response e s (_ & _ & Hsend & addr & Hrecv) Hp He].
  - rewrite He in H. now destruct H as [-> _].
  - destruct (os_getsockname E _); [now destruct H as [-> _]|].
    rewrite He in H. now destruct H as [-> _].
  - destruct (os_getsockname E _); [now destruct H as [-> _]|].
    destruct (os_sendto E _); [now destruct H as [-> _]|].
    rewrite He in H. now destruct H as [_ ->].
  - destruct (os_getsockname E _); [now destruct H as [-> _]|].
    rewrite Hsend, Hrecv, He in H. now destruct H as [_ ->].
  - destruct (os_getsockname E _); [now destruct H as [-> _]|].
    unfold parses in Hp.
    rewrite Hsend, Hrecv, Hp in H. destruct H as [_ [s' ->]].
    rewrite (dispatch_outcome_state response s' s), He. reflexivity.
Qed.

(** The value returned when the datagram [data] parses as [response]. *)
Lemma send_command_try_reply command params st data response :
  exchange E st data -> parses E data response ->
  fst (send_command_try E command params st) =
  Return (value_or_none (fst (dispatch response st))).
Proof.
  intros (Hheld & [a Hg] & Hsend & addr & Hrecv) Hp.
  destruct (send_command_try_cases E command params st) as (v & st' & -> & _ & H).
  simpl.
  destruct (_sock (self st)) as [fd|]; [|now elim Hheld].
  unfold parses in Hp.
  rewrite Hg, Hsend, Hrecv, Hp in H. destruct H as [_ [s' ->]].
  now rewrite (dispatch_outcome_state response s' st).
Qed.

End SendCommand.

(** ** What [_send_command] returns *)

Section Replies.

Variable E : Env.

(** C1.  A call of [_send_command] whose reply datagram parses as a JSON
    object returns the object under ["result"] when that is itself an
    object, [None] when there is no ["result"] but an ["error"], and the
    whole parsed object when it has neither key. *)
Theorem send_command_reply_dispatch n command params st st1 data obj :
  enters_try E n st st1 ->
  exchange E st1 data ->
  parses E data (PDict obj) ->
  let returned := fst (_send_command E (S n) command params st) in
  (forall r, dict_get obj (lit "result") = Some (PDict r) ->
             returned = Return (PDict r)) /\
  (dict_get obj (lit "result") = None ->
   dict_get obj (lit "error") <> None ->
   returned = Return PNone) /\
  (dict_get obj (lit "result") = None ->
   dict_get obj (lit "error") = None ->
   returned = Return (PDict obj)).
Proof.
  intros Henter Hex Hp returned. subst returned.
  rewrite (send_command_enters E n command params st st1 Henter).
  rewrite (send_command_try_reply E command params st1 data (PDict obj) Hex Hp).
  rewrite dispatch_object.
  repeat split.
  - intros r ->. reflexivity.
  - intros -> Herr. destruct (dict_get obj (lit "error")); [reflexivity|now elim Herr].
  - intros -> ->. reflexivity.
Qed.

(** C10.  When the reply parses as a JSON object whose ["result"] is not
    itself an object, [_send_command] returns [None]. *)
Theorem send_command_result_not_object n command params st st1 data obj v :
  enters_try E n st st1 ->
  exchange E st1 data ->
  parses E data (PDict obj) ->
  dict_get obj (lit "result") = Some v ->
  (forall r, v <> PDict r) ->
  fst (_send_command E (S n) command params st) = Return PNone.
Proof.
  intros Henter Hex Hp Hres Hv.
  rewrite (send_command_enters E n command params st st1 Henter).
  rewrite (send_command_try_reply E command params st1 data (PDict obj) Hex Hp).
  rewrite dispatch_object, Hres.
  destruct v; try reflexivity. now elim (Hv d).
Qed.

(** C2.  [_send_command] returns and never raises, with the same result
    whatever fuel it is given beyond two; a fault of any kind in its [try]
    statement, and an implicit [connect] that fails, make it return
    [None]. *)
Theorem send_command_never_raises n command params st :
  (exists v st', _send_command E (S (S n)) command params st = (Return v, st')) /\
  (forall m, _send_command E (S (S m)) command params st =
             _send_command E (S (S n)) command params st) /\
  (forall st1, enters_try E (S n) st st1 -> fault E st1 ->
     fst (_send_command E (S (S n)) command params st) = Return PNone) /\
  (_sock (self st) = None ->
   fst (connect E (S n) (connecting st)) = Return false ->
   fst (_send_command E (S (S n)) command params st) = Return PNone).
Proof.
  split; [apply send_command_returns|split; [|split]].
  - intros m. apply send_command_fuel.
  - intros st1 Henter Hf.
    rewrite (send_command_enters E (S n) command params st st1 Henter).
    now apply send_command_try_fault.
  - intros Hs Hc. rewrite send_command_unfold, Hs.
    destruct (connect E (S n) (connecting st)) as [o st1].
    simpl in Hc. subst o. reflexivity.
Qed.

End Replies.



(** ** What [_send_command] sends *)

Section Requests.

Variable E : Env.

Lemma send_command_try_sent command params st fd :
  _sock (self st) = Some fd ->
  (exists a, os_getsockname E (clock (world st)) = inr a) ->
  os_sendto E (S (clock (world st))) = None ->
  exists v st',
    send_command_try E command params st = (Return v, st') /\
    frame st st' /\
    sent (world st') =
      sent (world st) ++ [request_datagram E st fd command params].
Proof.
  intros Hs [a Hg] Hsend.
  destruct (send_command_try_cases E command params st) as (v & st' & Heq & Hf & H).
  rewrite Hs, Hg, Hsend in H. destruct H as [H _].
  eauto.
Qed.

Lemma no_reply_fault : no_reply E -> forall s, fault E s.
Proof.
  intros Hno s. destruct (Hno (S (S (clock (world s))))) as [e He].
  now apply fault_recvfrom with e.
Qed.

Lemma send_command_all_fault n command params st :
  (forall s, fault E s) ->
  fst (_send_command E (S (S n)) command params st) = Return PNone.
Proof.
  intros Hall.
  assert (Htry : forall c p s, fst (send_command_try E c p s) = Return PNone).
  { intros c p s. apply send_command_try_fault, Hall. }
  rewrite send_command_unfold.
  destruct (_sock (self st)); [apply Htry|].
  destruct (connect_returns E n (connecting st)) as (b & st1 & ->).
  destruct b; simpl; [apply Htry|reflexivity].
Qed.

Lemma get_all_data_cases n st :
  exists device battery es_mode s1 s2 s3,
    get_device_info E (S (S n))
      (snd (logging DEBUG "Fetching all data from device..." st))
      = (Return device, s1) /\
    get_battery_status E (S (S n)) s1 = (Return battery, s2) /\
    get_es_mode E (S (S n)) s2 = (Return es_mode, s3) /\
    get_all_data E (S (S n)) st =
      (Return (PDict [(lit "device", device);
                      (lit "battery", battery);
                      (lit "es_mode", es_mode)]),
       snd (logging DEBUG "Data fetch complete. Successful: %s/%s" s3)).
Proof.
  unfold get_all_data, get_device_info, get_battery_status, get_es_mode.
  destruct (send_command_returns E n CMD_GET_DEVICE None
              (snd (logging DEBUG "Fetching all data from device..." st)))
    as (r1 & s1 & H1).
  destruct (send_command_returns E n CMD_BAT_STATUS (Some [(lit "id", PInt 0)]) s1)
    as (r2 & s2 & H2).
  destruct (send_command_returns E n CMD_ES_GET_MODE (Some [(lit "id", PInt 0)]) s2)
    as (r3 & s3 & H3).
  exists r1, r2, r3, s1, s2, s3.
  split; [exact H1|]. split; [exact H2|].
  split.
  - unfold bind at 1. rewrite H3. reflexivity.
  - unfold bind at 1. unfold bind at 1.
    change (logging DEBUG "Fetching all data from device..." st)
      with (Return tt, snd (logging DEBUG "Fetching all data from device..." st)).
    cbv beta iota. rewrite H1.
    unfold bind at 1. rewrite H2.
    unfold bind at 1. unfold bind at 1. rewrite H3.
    reflexivity.
Qed.


Lemma request_datagram_frame st st' fd command params :
  frame st st' ->
  request_datagram E st' fd command params = request_datagram E st fd command params.
Proof. intros (Hself & _). unfold request_datagram. now rewrite Hself. Qed.

(** C7.  [get_all_data] returns, without raising, a dict with exactly the
    keys ["device"], ["battery"], ["es_mode"], whose values are the results
    of [get_device_info], [get_battery_status] and [get_es_mode] run in that
    order; when every exchange fails the three values are [None]; on a
    held socket that sends, the three requests leave in that order. *)
Theorem get_all_data_snapshot n st :
  (exists device battery es_mode s1 s2 s3,
     get_device_info E (S (S n))
       (snd (logging DEBUG "Fetching all data from device..." st))
       = (Return device, s1) /\
     get_battery_status E (S (S n)) s1 = (Return battery, s2) /\
     get_es_mode E (S (S n)) s2 = (Return es_mode, s3) /\
     get_all_data E (S (S n)) st =
       (Return (PDict [(lit "device", device);
                       (lit "battery", battery);
                       (lit "es_mode", es_mode)]),
        snd (logging DEBUG "Data fetch complete. Successful: %s/%s" s3))) /\
  ((forall s, fault E s) ->
   fst (get_all_data E (S (S n)) st) =
     Return (PDict [(lit "device", PNone);
                    (lit "battery", PNone);
                    (lit "es_mode", PNone)])) /\
  (forall fd, _sock (self st) = Some fd -> sends_succeed E ->
     sent (world (snd (get_all_data E (S (S n)) st))) =
       sent (world st) ++
       [request_datagram E st fd CMD_GET_DEVICE None;
        request_datagram E st fd CMD_BAT_STATUS (Some [(lit "id", PInt 0)]);
        request_datagram E st fd CMD_ES_GET_MODE (Some [(lit "id", PInt 0)])]).
Proof.
  destruct (get_all_data_cases n st)
    as (r1 & r2 & r3 & s1 & s2 & s3 & H1 & H2 & H3 & Hall).
  split; [|split].
  - exists r1, r2, r3, s1, s2, s3. auto.
  - intros Hno. rewrite Hall. simpl.
    pose proof (send_command_all_fault n CMD_GET_DEVICE None
                  (snd (logging DEBUG "Fetching all data from device..." st)) Hno) as N1.
    pose proof (send_command_all_fault n CMD_BAT_STATUS
                  (Some [(lit "id", PInt 0)]) s1 Hno) as N2.
    pose proof (send_command_all_fault n CMD_ES_GET_MODE
                  (Some [(lit "id", PInt 0)]) s2 Hno) as N3.
    unfold get_device_info in H1. unfold get_battery_status in H2.
    unfold get_es_mode, bind in H3.
    rewrite H1 in N1. rewrite H2 in N2.
    destruct (_send_command E (S (S n)) CMD_ES_GET_MODE _ s2) as [[v| |] s3'];
      try discriminate.
    simpl in N1, N2, N3, H3.
    injection N1 as ->. injection N2 as ->. injection N3 as ->.
    injection H3 as <- _. reflexivity.
  - intros fd Hs [Hg Hsend]. rewrite Hall.
    unfold get_device_info in H1. unfold get_battery_status in H2.
    unfold get_es_mode, bind in H3.
    set (st0 := snd (logging DEBUG "Fetching all data from device..." st)) in *.
    assert (Hs0 : _sock (self st0) = Some fd) by exact Hs.
    destruct (send_command_try_sent CMD_GET_DEVICE None st0 fd Hs0 (Hg _) (Hsend _))
      as (v1 & t1 & T1 & F1 & S1).
    rewrite send_command_held, T1 in H1 by congruence.
    injection H1 as <- <-.
    assert (Hs1 : _sock (self t1) = Some fd) by (destruct F1 as (-> & _); exact Hs0).
    destruct (send_command_try_sent CMD_BAT_STATUS (Some [(lit "id", PInt 0)])
                t1 fd Hs1 (Hg _) (Hsend _))
      as (v2 & t2 & T2 & F2 & S2).
    rewrite send_command_held, T2 in H2 by congruence.
    injection H2 as <- <-.
    assert (Hs2 : _sock (self t2) = Some fd) by (destruct F2 as (-> & _); exact Hs1).
    destruct (send_command_try_sent CMD_ES_GET_MODE (Some [(lit "id", PInt 0)])
                t2 fd Hs2 (Hg _) (Hsend _))
      as (v3 & t3 & T3 & F3 & S3).
    rewrite send_command_held, T3 in H3 by congruence.
    injection H3 as <- <-.
    simpl. rewrite S3, S2, S1.
    unfold request_datagram.
    destruct F2 as (E2 & _), F1 as (E1 & _). rewrite E2, E1.
    rewrite <- !app_assoc. reflexivity.
Qed.


Lemma send_command_sent n command params st st1 fd :
  enters_try E n st st1 ->
  _sock (self st1) = Some fd ->
  (exists a, os_getsockname E (clock (world st1)) = inr a) ->
  os_sendto E (S (clock (world st1))) = None ->
  sent (world (snd (_send_command E (S n) command params st))) =
    sent (world st1) ++ [request_datagram E st1 fd command params].
Proof.
  intros Henter Hs Hg Hsend.
  rewrite (send_command_enters E n command params st st1 Henter).
  destruct (send_command_try_sent command params st1 fd Hs Hg Hsend)
    as (v & st' & -> & _ & H).
  exact H.
Qed.

(** C6.  The request of [_send_command] is, whatever the state the call
    starts in, the dict with ["id"] the literal 1, ["method"] the command and
    ["params"] the caller's non-empty params or else [{"ble_mac": "0"}]; the
    datagram sent is its serialization with the separators [","] and [":"],
    a text without whitespace outside its string literals. *)
Theorem request_id_method_params n command params st st1 fd :
  enters_try E n st st1 ->
  _sock (self st1) = Some fd ->
  (exists a, os_getsockname E (clock (world st1)) = inr a) ->
  os_sendto E (S (clock (world st1))) = None ->
  let params' :=
    match params with
    | Some (x :: d) => x :: d
    | _ => [(lit "ble_mac", PStr (lit "0"))]
    end in
  let request :=
    [(lit "id", PInt 1); (lit "method", PStr command);
     (lit "params", PDict params')] in
  let payload := Json.dumps (float_repr E) "," ":" (PDict request) in
  build_request command params st1 = (Return request, st1) /\
  sent (world (snd (_send_command E (S n) command params st))) =
    sent (world st1) ++
    [{| dg_sock := fd; dg_payload := payload;
        dg_host := host (self st1); dg_port := port (self st1) |}] /\
  payload =
    (Bench.json_text "{'id':1,'method':" ++ Json.quote command ++
     Bench.json_text ",'params':" ++
     Json.dumps (float_repr E) "," ":" (PDict params') ++ "}")%string /\
  ((forall f, plain (float_repr E f) = true) -> compact payload).
Proof.
  intros Henter Hs Hg Hsend params' request payload.
  split; [apply build_request_eq|split; [|split]].
  - apply (send_command_sent n command params st st1 fd Henter Hs Hg Hsend).
  - unfold payload, request. cbn [Json.dumps].
    rewrite !string_app_assoc. reflexivity.
  - intros Hfloat. now apply compact_dumps.
Qed.

End Requests.

(** ** [set_es_mode] *)

Lemma not_in_modes mode :
  ~ In mode ES_MODES ->
  str_eqb mode (lit "Auto") = false /\
  str_eqb mode (lit "AI") = false /\
  str_eqb mode (lit "Manual") = false /\
  str_eqb mode (lit "Passive") = false.
Proof.
  intros Hn.
  repeat split;
    (destruct (str_eqb mode _) eqn:Heq; [|reflexivity]);
    apply str_eqb_eq in Heq; subst mode; elim Hn; simpl; auto.
Qed.

Section Modes.

Variable E : Env.

Lemma set_es_mode_state fuel mode config st :
  snd (set_es_mode E fuel mode config st) =
  snd (_send_command E fuel CMD_ES_SET_MODE (Some (es_mode_params mode config)) st).
Proof.
  unfold set_es_mode, bind.
  destruct (_send_command E fuel CMD_ES_SET_MODE _ st) as [[v|e|] s];
    try reflexivity.
  destruct (truthy v); [|reflexivity].
  destruct v; simpl; try reflexivity.
  destruct (is_True _); reflexivity.
Qed.

(** The result of [set_es_mode] from the value [_send_command] returns. *)
Lemma set_es_mode_result fuel mode config st :
  let returned :=
    fst (_send_command E fuel CMD_ES_SET_MODE
           (Some (es_mode_params mode config)) st) in
  (returned = Return PNone ->
   fst (set_es_mode E fuel mode config st) = Return false) /\
  (forall d, returned = Return (PDict d) ->
   fst (set_es_mode E fuel mode config st) =
     Return (field_is_True d (lit "set_result"))).
Proof.
  unfold set_es_mode, bind.
  destruct (_send_command E fuel CMD_ES_SET_MODE _ st) as [[v|e|] s];
    simpl; (split; [intros H|intros d H]); try discriminate;
    injection H as ->; [reflexivity|].
  destruct d as [|[k x] d]; [reflexivity|].
  unfold field_is_True, dict_get_default.
  cbn [truthy lift py_get bind fst dict_get].
  unfold dict_get_default. cbn [dict_get].
  destruct (if str_eqb k (lit "set_result") then Some x
            else dict_get d (lit "set_result")) as [[| [|] | | | | |]|];
    reflexivity.
Qed.

(** C8.  [set_es_mode("Manual")] without an override of [manual_cfg] builds
    the config [{"mode": "Manual", "manual_cfg": {...}}] with the documented
    schedule and no other key, and that is what the request carries. *)
Theorem manual_default_request n config st st1 fd :
  (forall c, config = Some c -> dict_get c (lit "manual_cfg") = None) ->
  enters_try E n st st1 ->
  _sock (self st1) = Some fd ->
  (exists a, os_getsockname E (clock (world st1)) = inr a) ->
  os_sendto E (S (clock (world st1))) = None ->
  es_mode_params (lit "Manual") config =
    [(lit "id", PInt 1);
     (lit "config",
      PDict [(lit "mode", PStr (lit "Manual"));
             (lit "manual_cfg",
              PDict [(lit "time_num", PInt 1);
                     (lit "start_time", PStr (lit "08:30"));
                     (lit "end_time", PStr (lit "20:30"));
                     (lit "week_set", PInt 127);
                     (lit "power", PInt 100);
                     (lit "enable", PInt 1)])])] /\
  sent (world (snd (set_es_mode E (S n) (lit "Manual") config st))) =
    sent (world st1) ++
    [{| dg_sock := fd;
        dg_payload := Bench.json_text
          "{'id':1,'method':'ES.SetMode','params':{'id':1,'config':{'mode':'Manual','manual_cfg':{'time_num':1,'start_time':'08:30','end_time':'20:30','week_set':127,'power':100,'enable':1}}}}";
        dg_host := host (self st1); dg_port := port (self st1) |}].
Proof.
  intros Hcfg Henter Hs Hg Hsend.
  assert (Hparams : es_mode_params (lit "Manual") config =
    [(lit "id", PInt 1);
     (lit "config",
      PDict [(lit "mode", PStr (lit "Manual"));
             (lit "manual_cfg",
              PDict [(lit "time_num", PInt 1);
                     (lit "start_time", PStr (lit "08:30"));
                     (lit "end_time", PStr (lit "20:30"));
                     (lit "week_set", PInt 127);
                     (lit "power", PInt 100);
                     (lit "enable", PInt 1)])])]).
  { unfold es_mode_params.
    change (str_eqb (lit "Manual") (lit "Auto")) with false.
    change (str_eqb (lit "Manual") (lit "AI")) with false.
    change (str_eqb (lit "Manual") (lit "Manual")) with true.
    cbv iota. unfold dict_get_default.
    destruct config as [c|].
    - rewrite (Hcfg c eq_refl). reflexivity.
    - reflexivity. }
  split; [exact Hparams|].
  rewrite set_es_mode_state.
  rewrite (send_command_sent E n CMD_ES_SET_MODE _ st st1 fd Henter Hs Hg Hsend).
  rewrite Hparams. reflexivity.
Qed.

(** C3, as the code has it.  [set_es_mode] does not validate the mode: for
    a mode outside the four variants the config is just [{"mode": mode}] and
    the request is sent like any other.  The rejection with a logged error is
    in the selector, [async_select_option], which then calls nothing. *)
Theorem unknown_mode_forwarded n mode config st :
  ~ In mode ES_MODES ->
  es_mode_params mode config =
    [(lit "id", PInt 1); (lit "config", PDict [(lit "mode", PStr mode)])] /\
  (forall st1 fd,
     enters_try E n st st1 ->
     _sock (self st1) = Some fd ->
     (exists a, os_getsockname E (clock (world st1)) = inr a) ->
     os_sendto E (S (clock (world st1))) = None ->
     sent (world (snd (set_es_mode E (S n) mode config st))) =
       sent (world st1) ++
       [request_datagram E st1 fd CMD_ES_SET_MODE
          (Some [(lit "id", PInt 1);
                 (lit "config", PDict [(lit "mode", PStr mode)])])]) /\
  async_select_option E (S n) mode st =
    (Return tt, snd (logging ERROR "Invalid ES mode: %s" st)).
Proof.
  intros Hn.
  destruct (not_in_modes mode Hn) as (H1 & H2 & H3 & H4).
  assert (Hparams : es_mode_params mode config =
    [(lit "id", PInt 1); (lit "config", PDict [(lit "mode", PStr mode)])]).
  { unfold es_mode_params. now rewrite H1, H2, H3, H4. }
  split; [exact Hparams|split].
  - intros st1 fd Henter Hs Hg Hsend.
    rewrite set_es_mode_state.
    rewrite (send_command_sent E n CMD_ES_SET_MODE _ st st1 fd Henter Hs Hg Hsend).
    now rewrite Hparams.
  - unfold async_select_option, ES_MODES, ES_MODE_AUTO, ES_MODE_AI,
      ES_MODE_MANUAL, ES_MODE_PASSIVE.
    cbn [existsb]. rewrite H1, H2, H3, H4. reflexivity.
Qed.

End Modes.

Lemma field_is_True_iff d key :
  field_is_True d key = true <-> dict_get d key = Some (PBool true).
Proof.
  unfold field_is_True.
  destruct (dict_get d key) as [[| [|] | | | | |]|]; split; intros H;
    try reflexivity; try discriminate.
Qed.

Section SetResult.

Variable E : Env.

(** C5, as the code has it.  When the exchange fails, or the reply parses
    as a JSON object, [set_es_mode] returns a boolean without raising; it
    is [True] exactly when the object [_send_command] returns -- the
    reply's ["result"] object, or the whole reply when it has neither
    ["result"] nor ["error"] -- has ["set_result"] equal to [True]. *)
Theorem set_es_mode_strict n mode config st :
  (forall st1, enters_try E n st st1 -> fault E st1 ->
     fst (set_es_mode E (S n) mode config st) = Return false) /\
  (_sock (self st) = None ->
   fst (connect E n (connecting st)) = Return false ->
   fst (set_es_mode E (S n) mode config st) = Return false) /\
  (forall st1 data obj,
     enters_try E n st st1 -> exchange E st1 data ->
     parses E data (PDict obj) ->
     exists b,
       fst (set_es_mode E (S n) mode config st) = Return b /\
       (b = true <->
        (exists r, dict_get obj (lit "result") = Some (PDict r) /\
                   dict_get r (lit "set_result") = Some (PBool true)) \/
        (dict_get obj (lit "result") = None /\
         dict_get obj (lit "error") = None /\
         dict_get obj (lit "set_result") = Some (PBool true)))).
Proof.
  destruct (set_es_mode_result E (S n) mode config st) as [Hnone Hdict].
  split; [|split].
  - intros st1 Henter Hf. apply Hnone.
    rewrite (send_command_enters E n _ _ st st1 Henter).
    now apply send_command_try_fault.
  - intros Hs Hc. apply Hnone.
    rewrite send_command_unfold, Hs.
    destruct (connect E n (connecting st)) as [o st1].
    simpl in Hc. subst o. reflexivity.
  - intros st1 data obj Henter Hex Hp.
    assert (Hret : fst (_send_command E (S n) CMD_ES_SET_MODE
                          (Some (es_mode_params mode config)) st) =
                   Return (value_or_none (fst (dispatch (PDict obj) st1)))).
    { rewrite (send_command_enters E n _ _ st st1 Henter).
      now apply send_command_try_reply with data. }
    rewrite dispatch_object in Hret.
    destruct (dict_get obj (lit "result")) as [v|] eqn:Hres.
    + destruct v as [| | | | | |r];
        try (exists false; split; [now apply Hnone|];
             split; [discriminate|];
             intros [(r & Hr & _)|(Hr & _)]; discriminate).
      exists (field_is_True r (lit "set_result")).
      split; [now apply Hdict|].
      rewrite field_is_True_iff. split.
      * intros H. left. exists r. auto.
      * intros [(r' & Hr & H)|(Hr & _)]; [|discriminate].
        injection Hr as ->. exact H.
    + destruct (dict_get obj (lit "error")) as [v|] eqn:Herr.
      * exists false. split; [now apply Hnone|].
        split; [discriminate|].
        intros [(r & Hr & _)|(_ & He & _)]; discriminate.
      * exists (field_is_True obj (lit "set_result")).
        split; [now apply Hdict|].
        rewrite field_is_True_iff. split.
        -- intros H. right. auto.
        -- intros [(r & Hr & _)|(_ & _ & H)]; [discriminate|exact H].
Qed.

End SetResult.

(** ** [connect] and [disconnect] *)

Section Lifecycle.

Variable E : Env.

Lemma disconnect_cases st :
  exists st',
    disconnect E st = (Return tt, st') /\
    _sock (self st') = None /\
    (_sock (self st) <> None \/ _connected (self st) = false ->
     _connected (self st') = false) /\
    open_socks (world st') =
      match _sock (self st) with
      | Some fd => remove Nat.eq_dec fd (open_socks (world st))
      | None => open_socks (world st)
      end /\
    sent (world st') = sent (world st).
Proof.
  unfold disconnect. unfold_monad.
  destruct (_sock (self st)) as [fd|] eqn:Hs; run.
  - destruct (os_close E (clock (world st))) as [e|]; run;
      eexists; (split; [reflexivity|]); repeat split;
      simpl; rewrite Hs; apply remove_remove_eq.
  - eexists; split; [reflexivity|]. repeat split; try assumption.
    intros [H|H]; [now elim H|exact H].
Qed.

Lemma disconnect_idle st :
  _sock (self st) = None -> disconnect E st = (Return tt, st).
Proof.
  intros Hs. unfold disconnect, bind, get_self. now rewrite Hs.
Qed.

(** C9.  [disconnect()] never raises and leaves the socket handle cleared,
    whatever [close()] did; on a client without a socket, in particular
    after a first [disconnect()] or on one never connected, it changes
    nothing; so any number of calls in a row ends disconnected. *)
Theorem disconnect_always_clears st :
  (exists st',
     disconnect E st = (Return tt, st') /\
     _sock (self st') = None /\
     (_sock (self st) <> None \/ _connected (self st) = false ->
      _connected (self st') = false) /\
     disconnect E st' = (Return tt, st')) /\
  (forall h p lp w,
     disconnect E {| self := init h p lp; world := w |} =
       (Return tt, {| self := init h p lp; world := w |})) /\
  (forall k, exists st',
     disconnect_times E (S k) st = (Return tt, st') /\
     _sock (self st') = None).
Proof.
  destruct (disconnect_cases st) as (st' & Hd & Hs & Hc & _).
  split; [|split].
  - exists st'. repeat split; try assumption. now apply disconnect_idle.
  - intros h p lp w. now apply disconnect_idle.
  - intros k. exists st'. simpl. unfold bind at 1. rewrite Hd.
    split; [|exact Hs].
    clear Hd Hc. induction k as [|k IH]; [reflexivity|].
    simpl. unfold bind at 1. rewrite (disconnect_idle st' Hs). exact IH.
Qed.


Lemma connect_cases n st :
  exists b st',
    connect E (S n) st = (Return b, st') /\
    ((frame st st' /\ os_socket E (clock (world st)) <> None) \/
     holds_created st st').
Proof.
  destruct (connect_with_cases E (get_device_info E (S n)) st (probe_ok E n))
    as (b & st' & Hc & [(_ & Hf & _ & Hno)|(Hnew & _)]);
    exists b, st'; (split; [exact Hc|]); [left|right]; auto.
Qed.

Lemma connect_sock_inv n st :
  sock_inv st -> _sock (self st) = None ->
  sock_inv (snd (connect E (S n) st)).
Proof.
  unfold sock_inv. intros Hinv Hs. rewrite Hs in Hinv.
  destruct (connect_cases n st) as (b & st' & -> & [[(Hself & _ & Hopen & _) _]|Hnew]);
    simpl.
  - now rewrite Hself, Hopen, Hs.
  - apply holds_created_new in Hnew; [|exact Hs].
    destruct Hnew as (Hsock & _ & _ & _ & _ & _ & Hopen & _).
    now rewrite Hsock, Hopen, Hinv.
Qed.

Lemma release_held fd new :
  fd <> new -> release (Some fd) (Some new) ([fd] ++ [new]) = [new].
Proof.
  intros Hne. unfold release.
  destruct (Nat.eqb_spec fd new) as [Heq|_]; [now elim Hne|].
  simpl. destruct (Nat.eq_dec fd fd) as [_|H]; [|now elim H].
  destruct (Nat.eq_dec fd new) as [Heq|_]; [now elim Hne|reflexivity].
Qed.

Lemma connect_sock_inv_held n st :
  sock_inv st -> sock_created st ->
  sock_inv (snd (connect E (S n) st)).
Proof.
  intros Hinv Hcr.
  destruct (_sock (self st)) as [fd|] eqn:Hs; [|now apply connect_sock_inv].
  unfold sock_inv in *. rewrite Hs in Hinv.
  destruct (connect_cases n st) as (b & st' & -> & [[(Hself & _ & Hopen & _) _]|Hnew]);
    simpl.
  - now rewrite Hself, Hopen, Hs.
  - destruct Hnew as (Hsock & _ & _ & _ & _ & _ & Hopen & _).
    rewrite Hsock, Hopen, Hs, Hinv. apply release_held.
    specialize (Hcr fd Hs). lia.
Qed.

Lemma connect_sock_created n st :
  sock_created st -> sock_created (snd (connect E (S n) st)).
Proof.
  intros Hcr fd.
  destruct (connect_cases n st) as (b & st' & -> & [[(Hself & Hnext & _) _]|Hnew]);
    simpl.
  - rewrite Hself, Hnext. apply Hcr.
  - destruct Hnew as (Hsock & _ & _ & _ & _ & Hnext & _).
    rewrite Hsock, Hnext. intros [= <-]. lia.
Qed.

Lemma disconnect_sock_created st :
  sock_created st -> sock_created (snd (disconnect E st)).
Proof.
  intros _ fd.
  destruct (disconnect_cases st) as (st' & -> & Hs & _). simpl.
  rewrite Hs. discriminate.
Qed.

Lemma disconnect_sock_inv st :
  sock_inv st -> sock_inv (snd (disconnect E st)).
Proof.
  unfold sock_inv. intros Hinv.
  destruct (disconnect_cases st) as (st' & -> & Hs & _ & Hopen & _). simpl.
  rewrite Hs, Hopen.
  destruct (_sock (self st)) as [fd|]; [|exact Hinv].
  rewrite Hinv. simpl. destruct (Nat.eq_dec fd fd) as [_|Hne];
    [reflexivity|now elim Hne].
Qed.

Lemma send_command_sock_inv n command params st :
  sock_inv st -> sock_inv (snd (_send_command E (S (S n)) command params st)).
Proof.
  intros Hinv.
  assert (Htry : forall s, sock_inv s ->
            sock_inv (snd (send_command_try E command params s))).
  { intros s Hs.
    destruct (send_command_try_cases E command params s)
      as (v & s' & -> & (Hself & _ & Hopen & _) & _).
    unfold sock_inv in *. simpl. now rewrite Hself, Hopen. }
  rewrite send_command_unfold.
  destruct (_sock (self st)) as [fd|] eqn:Hs; [now apply Htry|].
  assert (Hc : sock_inv (snd (connect E (S n) (connecting st)))).
  { apply connect_sock_inv; [exact Hinv|exact Hs]. }
  destruct (connect_cases n (connecting st)) as (b & st1 & Heq & _).
  rewrite Heq in Hc |- *. simpl in Hc.
  destruct b; simpl; [now apply Htry|exact Hc].
Qed.

(** C4, as the code has it.  [connect()] does not look at the handle: a
    call whose socket creation succeeds makes a new socket and stores it in
    the handle.  The socket held before, if any, is not reused: it leaves
    the handle, which was its only reference, and is closed, so the new
    socket is the only one open.  That the only open socket is the one held
    is thus preserved by every sequence of [connect()] and [disconnect()]
    calls, and by [_send_command]. *)
Theorem connect_opens_new_socket n st :
  (os_socket E (clock (world st)) = None ->
   _sock (self (snd (connect E (S n) st))) = Some (next_sock (world st)) /\
   next_sock (world (snd (connect E (S n) st))) = S (next_sock (world st)) /\
   (sock_inv st -> sock_created st ->
    _sock (self (snd (connect E (S n) st))) <> _sock (self st) /\
    open_socks (world (snd (connect E (S n) st))) = [next_sock (world st)])) /\
  (forall calls,
     sock_inv st -> sock_created st ->
     sock_inv (run_calls E (S n) calls st) /\
     sock_created (run_calls E (S n) calls st) /\
     List.length (open_socks (world (run_calls E (S n) calls st))) <= 1) /\
  (forall command params,
     sock_inv st ->
     sock_inv (snd (_send_command E (S (S n)) command params st))).
Proof.
  split; [|split].
  - intros Hok.
    pose proof (connect_sock_inv_held n st) as Hkeep.
    destruct (connect_cases n st) as (b & st' & Hc & [[_ Hno]|Hnew]);
      [now elim Hno|].
    rewrite Hc in Hkeep |- *. simpl in Hkeep |- *.
    destruct Hnew as (Hsock & _ & _ & _ & _ & Hnext & _).
    split; [exact Hsock|]. split; [exact Hnext|].
    intros Hinv Hcr. split.
    + rewrite Hsock. intros Heq. symmetry in Heq.
      specialize (Hcr _ Heq). lia.
    + specialize (Hkeep Hinv Hcr). unfold sock_inv in Hkeep.
      now rewrite Hsock in Hkeep.
  - intros calls. revert st.
    induction calls as [|[|] calls IH]; intros st Hinv Hcr.
    + simpl. split; [exact Hinv|]. split; [exact Hcr|].
      unfold sock_inv in Hinv. rewrite Hinv.
      destruct (_sock (self st)); simpl; lia.
    + apply IH; [now apply connect_sock_inv_held|now apply connect_sock_created].
    + apply IH; [now apply disconnect_sock_inv|now apply disconnect_sock_created].
  - intros command params Hinv. now apply send_command_sock_inv.
Qed.

End Lifecycle.

(** * Further properties *)

(** ** [connect], case by case *)

Lemma step_trans a b c : step a b -> step b c -> step a c.
Proof.
  intros [(Sab & Nab & Oab & Rab)|(Na & Hab)] [(Sbc & Nbc & Obc & Rbc)|(Nb & Hbc)].
  - left. repeat split; congruence.
  - right. split; [congruence|].
    destruct Hbc as (H1 & H2 & H3 & H4 & H5 & H6 & H7 & H8).
    repeat split; congruence.
  - right. split; [exact Na|].
    destruct Hab as (H1 & H2 & H3 & H4 & H5 & H6 & H7 & H8).
    repeat split; congruence.
  - destruct Hab as (H1 & _). congruence.
Qed.

Lemma step_sock_inv a b : step a b -> sock_inv a -> sock_inv b.
Proof.
  unfold sock_inv.
  intros [(Sab & _ & Oab & _)|(Na & Hab)] Hinv.
  - now rewrite Sab, Oab.
  - destruct Hab as (H1 & _ & _ & _ & _ & _ & H7 & _).
    rewrite Na in Hinv. now rewrite H1, H7, Hinv.
Qed.

Lemma step_next_sock a b :
  step a b -> next_sock (world a) <= next_sock (world b) <= S (next_sock (world a)).
Proof.
  intros [(_ & Nab & _)|(_ & Hab)].
  - lia.
  - destruct Hab as (_ & _ & _ & _ & _ & H6 & _). lia.
Qed.

Lemma step_held a b :
  step a b -> _sock (self a) <> None -> frame a b.
Proof. intros [H|[H _]] Hheld; [exact H|now elim Hheld]. Qed.

Section ConnectOutcome.

Variable E : Env.

Ltac solve_gave_up :=
  eexists _, _; (split; [reflexivity|]);
  first [ split; [reflexivity|split; [repeat split|reflexivity]]
        | split; [repeat split; simpl; congruence|repeat split] ].

Ltac solve_probed Hgo :=
  let v := fresh "v" in let s' := fresh "s'" in let Hp := fresh "Hp" in
  let H1 := fresh "H" in let H2 := fresh "H" in
  let H3 := fresh "H" in let H4 := fresh "H" in
  match goal with |- context [let (_, _) := ?p ?s in _] =>
    destruct (Hgo s eq_refl) as (v & s' & Hp & H1 & H2 & H3 & H4);
    rewrite Hp; simpl in H1, H2, H3, H4
  end;
  destruct (truthy v) eqn:?; run;
  eexists _, _; (split; [reflexivity|]);
  (split; [repeat split; simpl; try congruence; try (rewrite H1; reflexivity)|]);
  (split; [simpl; rewrite H1; reflexivity|]);
  eexists _, v, s'; (split; [exact Hp|]); repeat split; auto.

Lemma connect_with_outcome (probe : M pyval) st :
  (forall s, _sock (self s) <> None ->
             exists v s', probe s = (Return v, s') /\ frame s s') ->
  exists b st',
    connect_with E probe st = (Return b, st') /\
    match os_socket E (clock (world st)) with
    | Some _ => b = false /\ frame st st' /\ sent (world st') = sent (world st)
    | None =>
        holds_created st st' /\
        match os_settimeout E (S (clock (world st))) with
        | Some _ => gave_up st st' b
        | None =>
            match os_bind E (S (S (clock (world st)))) with
            | None =>
                probed probe st st' b (S (S (S (clock (world st)))))
                  (log (world st))
            | Some e =>
                if is_OSError e then
                  match os_bind E (S (S (S (clock (world st))))) with
                  | None =>
                      probed probe st st' b (S (S (S (S (clock (world st))))))
                        (log (world st) ++
                         [(DEBUG, "Could not bind to port %s, using random port: %s")])
                  | Some _ => gave_up st st' b
                  end
                else gave_up st st' b
            end
        end
    end.
Proof.
  intros Hprobe.
  unfold connect_with, gave_up, probed. unfold_monad.
  destruct (os_socket E (clock (world st))) as [e|] eqn:Hsock; run.
  { destruct e; run; solve_gave_up. }
  destruct (os_settimeout E (S (clock (world st)))) as [e|] eqn:Htm; run.
  { destruct e; run; solve_gave_up. }
  assert (Hgo : forall s : State,
    _sock (self s) = Some (next_sock (world st)) ->
    exists v s', probe s = (Return v, s') /\ frame s s').
  { intros s Hs. apply Hprobe. congruence. }
  destruct (os_bind E (S (S (clock (world st))))) as [e|] eqn:Hb; run.
  - destruct e; run; try solve_gave_up;
      (destruct (os_bind E (S (S (S (clock (world st)))))) as [e|] eqn:Hb2; run;
       [destruct e; run; solve_gave_up|]);
      solve_probed Hgo.
  - solve_probed Hgo.
Qed.

End ConnectOutcome.

Section ConnectProperties.

Variable E : Env.

Lemma connect_outcome n st :
  exists b st',
    connect E (S n) st = (Return b, st') /\
    match os_socket E (clock (world st)) with
    | Some _ => b = false /\ frame st st' /\ sent (world st') = sent (world st)
    | None =>
        holds_created st st' /\
        match os_settimeout E (S (clock (world st))) with
        | Some _ => gave_up st st' b
        | None =>
            match os_bind E (S (S (clock (world st)))) with
            | None =>
                probed (get_device_info E (S n)) st st' b
                  (S (S (S (clock (world st))))) (log (world st))
            | Some e =>
                if is_OSError e then
                  match os_bind E (S (S (S (clock (world st))))) with
                  | None =>
                      probed (get_device_info E (S n)) st st' b
                        (S (S (S (S (clock (world st))))))
                        (log (world st) ++
                         [(DEBUG, "Could not bind to port %s, using random port: %s")])
                  | Some _ => gave_up st st' b
                  end
                else gave_up st st' b
            end
        end
    end.
Proof. exact (connect_with_outcome E (get_device_info E (S n)) st (probe_ok E n)). Qed.


(** X2.  A failed [bind] to the configured local port.  When the error is an
    [OSError] and the second [bind], to port 0, succeeds, [connect()] goes on:
    it logs the fallback, probes the device and returns the truth value of
    the answer.  When the error is not an [OSError], [connect()] returns
    [False] without a second [bind] and without sending anything. *)
Theorem connect_bind_fallback n st e :
  os_socket E (clock (world st)) = None ->
  os_settimeout E (S (clock (world st))) = None ->
  os_bind E (S (S (clock (world st)))) = Some e ->
  (is_OSError e = true ->
   os_bind E (S (S (S (clock (world st))))) = None ->
   exists s v s',
     get_device_info E (S n) s = (Return v, s') /\
     clock (world s) = S (S (S (S (clock (world st))))) /\
     log (world s) =
       log (world st) ++
       [(DEBUG, "Could not bind to port %s, using random port: %s")] /\
     fst (connect E (S n) st) = Return (truthy v)) /\
  (is_OSError e = false ->
   fst (connect E (S n) st) = Return false /\
   sent (world (snd (connect E (S n) st))) = sent (world st) /\
   clock (world (snd (connect E (S n) st))) = S (S (S (clock (world st))))).
Proof.
  intros Hsock Htm Hb.
  destruct (connect_outcome n st) as (b & st' & Hc & H).
  rewrite Hsock, Htm, Hb in H. destruct H as [_ H].
  split.
  - intros Hos Hb2. rewrite Hos, Hb2 in H.
    destruct H as (_ & s & v & s' & Hg & Hk & Hl & _ & _ & _ & Hv).
    exists s, v, s'. rewrite Hc. simpl. subst b. auto.
  - intros Hos. rewrite Hos in H. destruct H as (-> & Hsent & _).
    rewrite Hc. simpl. repeat split; [exact Hsent|].
    revert Hc.
    unfold connect, connect_with. unfold_monad. run.
    destruct e; try discriminate Hos; run; intros [= <-]; reflexivity.
Qed.

End ConnectProperties.

(** ** [_send_command] and the socket *)

Section CommandProperties.

Variable E : Env.

Lemma probe_fault n s :
  fault E s -> _sock (self s) <> None ->
  fst (get_device_info E (S n) s) = Return PNone.
Proof.
  intros Hf Hheld. unfold get_device_info.
  rewrite send_command_held by exact Hheld.
  now apply send_command_try_fault.
Qed.

(** X3.  A probe that fails.  When [connect()] gets its socket bound and
    the exchange of its probe fails (the device does not answer it, say),
    [connect()] returns [False], but the socket created for it stays held
    and [_connected] stays [True]; a command issued afterwards goes straight
    to its [try] statement on that socket, without another [connect()].
    Nothing is supposed of the exchanges after the probe. *)
Theorem failed_probe_stays_connected n st k :
  bound_at E st k ->
  (forall s, clock (world s) = k -> _sock (self s) <> None -> fault E s) ->
  fst (connect E (S n) st) = Return false /\
  _connected (self (snd (connect E (S n) st))) = true /\
  _sock (self (snd (connect E (S n) st))) = Some (next_sock (world st)) /\
  (forall m command params,
     _send_command E (S m) command params (snd (connect E (S n) st)) =
     send_command_try E command params (snd (connect E (S n) st))).
Proof.
  intros (Hsock & Htm & Hbind) Hfault.
  destruct (connect_outcome E n st) as (b & st' & Hc & H).
  rewrite Hsock, Htm in H. destruct H as [Hnew H].
  assert (Hp : probed (get_device_info E (S n)) st st' b k
                 (log (world st)) \/
               probed (get_device_info E (S n)) st st' b k
                 (log (world st) ++
                  [(DEBUG, "Could not bind to port %s, using random port: %s")])).
  { destruct Hbind as [(Hb & ->)|(e & Hb & He & Hb2 & ->)].
    - rewrite Hb in H. now left.
    - rewrite Hb, He, Hb2 in H. now right. }
  assert (Hres : _connected (self st') = true /\ b = false).
  { destruct Hp as [Hp|Hp];
      destruct Hp as (Hconn & s & v & s' & Hg & Hk & _ & Hs & _ & _ & Hv);
      (assert (Hheld : _sock (self s) <> None) by congruence);
      pose proof (probe_fault n s (Hfault s Hk Hheld) Hheld) as Hnone;
      rewrite Hg in Hnone; simpl in Hnone; injection Hnone as ->;
      now split. }
  destruct Hres as (Hconn & ->).
  destruct Hnew as (Hheld & _).
  rewrite Hc. simpl.
  split; [reflexivity|]. split; [exact Hconn|]. split; [exact Hheld|].
  intros m command params. apply send_command_held. congruence.
Qed.

(** X4.  When no socket is held and the socket cannot be created,
    [_send_command] returns [None], sends nothing and leaves the client as it
    was, still without a socket: the next command will try again. *)
Theorem send_command_socket_failure n command params st e :
  _sock (self st) = None ->
  os_socket E (clock (world st)) = Some e ->
  exists st',
    _send_command E (S (S n)) command params st = (Return PNone, st') /\
    self st' = self st /\
    sent (world st') = sent (world st) /\
    open_socks (world st') = open_socks (world st) /\
    next_sock (world st') = next_sock (world st).
Proof.
  intros Hs Hsock.
  rewrite send_command_unfold, Hs.
  destruct (connect_outcome E n (connecting st)) as (b & st1 & Hc & H).
  change (clock (world (connecting st))) with (clock (world st)) in H.
  rewrite Hsock in H. destruct H as (-> & (Hself & Hnext & Hopen & _) & Hsent).
  rewrite Hc.
  eexists. split; [reflexivity|].
  simpl. repeat split; assumption.
Qed.

Lemma send_command_step n command params st :
  exists v st',
    _send_command E (S (S n)) command params st = (Return v, st') /\
    step st st'.
Proof.
  assert (Htry : forall s, exists v s',
            send_command_try E command params s = (Return v, s') /\ frame s s').
  { intros s.
    destruct (send_command_try_cases E command params s) as (v & s' & H & Hf & _).
    eauto. }
  rewrite send_command_unfold.
  destruct (_sock (self st)) as [fd|] eqn:Hs.
  - destruct (Htry st) as (v & st' & -> & Hf). exists v, st'. split; [reflexivity|].
    now left.
  - destruct (connect_cases E n (connecting st)) as (b & st1 & Hc & Hst).
    rewrite Hc.
    assert (Hstep : step st st1).
    { destruct Hst as [[(H1 & H2 & H3 & H4) _]|Hnew].
      - left. repeat split; assumption.
      - right. split; [exact Hs|].
        apply (holds_created_new (connecting st)) in Hnew; [|exact Hs].
        destruct Hnew as (H1 & H2 & H3 & H4 & H5 & H6 & H7 & H8).
        repeat split; assumption. }
    destruct b; simpl.
    + destruct (Htry st1) as (v & st' & -> & Hf). exists v, st'.
      split; [reflexivity|]. apply step_trans with st1; [exact Hstep|now left].
    + eexists _, _. split; [reflexivity|].
      apply step_trans with st1; [exact Hstep|]. left. repeat split.
Qed.

(** X5.  One poll opens at most one socket.  [get_all_data] on a client that
    holds a socket leaves its attributes and its sockets as they were;
    otherwise it creates at most one socket.  The sockets open stay exactly
    the one held. *)
Theorem get_all_data_opens_at_most_one_socket n st :
  next_sock (world st) <= next_sock (world (snd (get_all_data E (S (S n)) st)))
    <= S (next_sock (world st)) /\
  (_sock (self st) <> None ->
   self (snd (get_all_data E (S (S n)) st)) = self st /\
   open_socks (world (snd (get_all_data E (S (S n)) st))) = open_socks (world st) /\
   next_sock (world (snd (get_all_data E (S (S n)) st))) = next_sock (world st)) /\
  (sock_inv st -> sock_inv (snd (get_all_data E (S (S n)) st))).
Proof.
  assert (Hstep : step st (snd (get_all_data E (S (S n)) st))).
  { destruct (get_all_data_cases E n st)
      as (r1 & r2 & r3 & s1 & s2 & s3 & H1 & H2 & H3 & ->).
    unfold get_device_info in H1. unfold get_battery_status in H2.
    unfold get_es_mode, bind in H3.
    destruct (send_command_step n CMD_GET_DEVICE None
                (snd (logging DEBUG "Fetching all data from device..." st)))
      as (v1 & t1 & T1 & S1).
    rewrite T1 in H1. injection H1 as <- <-.
    destruct (send_command_step n CMD_BAT_STATUS (Some [(lit "id", PInt 0)]) t1)
      as (v2 & t2 & T2 & S2).
    rewrite T2 in H2. injection H2 as <- <-.
    destruct (send_command_step n CMD_ES_GET_MODE (Some [(lit "id", PInt 0)]) t2)
      as (v3 & t3 & T3 & S3).
    rewrite T3 in H3. injection H3 as <- <-.
    apply step_trans with t3; [|left; repeat split].
    apply step_trans with t2; [|exact S3].
    apply step_trans with t1; [|exact S2].
    apply step_trans with (snd (logging DEBUG "Fetching all data from device..." st));
      [left; repeat split|exact S1]. }
  split; [now apply step_next_sock|split].
  - intros Hheld. destruct (step_held _ _ Hstep Hheld) as (H1 & H2 & H3 & _). auto.
  - intros Hinv. now apply step_sock_inv with st.
Qed.

(** X6.  A command on a client that holds a socket leaves the attributes of
    the client and its sockets untouched, and sends at most one datagram:
    the request, from the held socket, to the configured host and port. *)
Theorem command_on_held_socket n command params st fd :
  _sock (self st) = Some fd ->
  exists v st',
    _send_command E (S n) command params st = (Return v, st') /\
    self st' = self st /\
    open_socks (world st') = open_socks (world st) /\
    next_sock (world st') = next_sock (world st) /\
    (sent (world st') = sent (world st) \/
     sent (world st') =
       sent (world st) ++
       [{| dg_sock := fd;
           dg_payload :=
             Json.dumps (float_repr E) "," ":"
               (PDict [(lit "id", PInt 1); (lit "method", PStr command);
                       (lit "params", PDict (effective_params params))]);
           dg_host := host (self st); dg_port := port (self st) |}]).
Proof.
  intros Hs. rewrite send_command_held by congruence.
  destruct (send_command_try_cases E command params st)
    as (v & st' & H & (Hself & Hnext & Hopen & _) & Hcase).
  exists v, st'. split; [exact H|]. repeat split; try assumption.
  rewrite Hs in Hcase.
  destruct (os_getsockname E _); [left; apply Hcase|].
  destruct (os_sendto E _); [left; apply Hcase|].
  right. apply Hcase.
Qed.

End CommandProperties.

(** ** Replies that are not objects, and long replies *)

Lemma substring_prefix (a b : string) :
  substring 0 (String.length a) (a ++ b)%string = a.
Proof. induction a as [|c a IH]; simpl; [now destruct b|now rewrite IH]. Qed.

Lemma substring_whole (a : string) n :
  String.length a <= n -> substring 0 n a = a.
Proof.
  revert n. induction a as [|c a IH]; intros n Hn; simpl in *.
  - now destruct n.
  - destruct n as [|n]; [lia|]. simpl. rewrite IH; [reflexivity|lia].
Qed.

Section Replies2.

Variable E : Env.

Lemma dispatch_not_object response st :
  is_dict response = false ->
  fst (dispatch response st) =
  match py_contains (lit "result") response, py_contains (lit "error") response with
  | inr false, inr false => Return response
  | _, _ => Raise TypeError
  end.
Proof.
  intros Hd. unfold dispatch, bind, lift, py_getitem, py_keys.
  unfold py_contains.
  destruct response as [ | | | |s|l|d]; try discriminate; simpl;
    repeat (case_split; simpl); reflexivity.
Qed.

(** X7.  A reply that parses, but not as an object.  A JSON array or string
    that does not contain ["result"] or ["error"] (as an element, as a
    substring) is returned as it is, so [_send_command] can return a list or
    a str; every other reply that is not an object gives [None]. *)
Theorem reply_not_object n command params st st1 data response :
  enters_try E n st st1 ->
  exchange E st1 data ->
  parses E data response ->
  is_dict response = false ->
  fst (_send_command E (S n) command params st) =
  Return
    match py_contains (lit "result") response,
          py_contains (lit "error") response with
    | inr false, inr false => response
    | _, _ => PNone
    end.
Proof.
  intros Henter Hex Hp Hd.
  rewrite (send_command_enters E n command params st st1 Henter).
  rewrite (send_command_try_reply E command params st1 data response Hex Hp).
  rewrite (dispatch_not_object response st1 Hd).
  destruct (py_contains (lit "result") response) as [|[|]];
    destruct (py_contains (lit "error") response) as [|[|]]; reflexivity.
Qed.

(** X8.  Only the first 4096 bytes of a datagram are read.  A datagram of
    at most 4096 bytes is parsed whole; of a longer one, what follows the
    first 4096 bytes has no influence on the result. *)
Theorem reply_cut_at_4096 n command params st st1 data tail response :
  enters_try E n st st1 ->
  exchange E st1 (data ++ tail)%string ->
  json_loads E (bytes_decode E data) = inr response ->
  String.length data = 4096 \/ (String.length data <= 4096 /\ tail = EmptyString) ->
  fst (_send_command E (S n) command params st) =
  Return (value_or_none (fst (dispatch response st1))).
Proof.
  intros Henter Hex Hl Hlen.
  rewrite (send_command_enters E n command params st st1 Henter).
  apply send_command_try_reply with (data ++ tail)%string; [exact Hex|].
  unfold parses.
  destruct Hlen as [Hlen|[Hlen ->]].
  - rewrite <- Hlen, substring_prefix. exact Hl.
  - assert (Happ : (data ++ EmptyString)%string = data).
    { clear. induction data as [|c d IH]; simpl; [reflexivity|now rewrite IH]. }
    rewrite Happ, substring_whole by exact Hlen. exact Hl.
Qed.

End Replies2.

(** ** The modes and the accessors on the wire *)

Section Wire.

Variable E : Env.

(** X9.  For each of the four modes, the config [set_es_mode] sends has
    exactly two keys: ["mode"], and the key of that mode.  Under that key
    goes the caller's override when [config] has one, the default of the mode
    otherwise; overrides under the keys of other modes are not sent. *)
Theorem mode_override_or_default n mode key default config st :
  In (mode, (key, default)) mode_table ->
  exists cfg,
    es_mode_params mode config =
      [(lit "id", PInt 1);
       (lit "config", PDict [(lit "mode", PStr mode); (key, cfg)])] /\
    (forall c v, config = Some c -> dict_get c key = Some v -> cfg = v) /\
    (config = None \/ (exists c, config = Some c /\ dict_get c key = None) ->
     cfg = default) /\
    (forall st1 fd,
       enters_try E n st st1 ->
       _sock (self st1) = Some fd ->
       (exists a, os_getsockname E (clock (world st1)) = inr a) ->
       os_sendto E (S (clock (world st1))) = None ->
       sent (world (snd (set_es_mode E (S n) mode config st))) =
         sent (world st1) ++
         [request_datagram E st1 fd CMD_ES_SET_MODE
            (Some [(lit "id", PInt 1);
                   (lit "config", PDict [(lit "mode", PStr mode); (key, cfg)])])]).
Proof.
  intros Hin.
  exists (dict_get_default (match config with Some c => c | None => [] end) key default).
  assert (Hparams : es_mode_params mode config =
      [(lit "id", PInt 1);
       (lit "config",
        PDict [(lit "mode", PStr mode);
               (key, dict_get_default
                       (match config with Some c => c | None => [] end)
                       key default)])]).
  { simpl in Hin.
    destruct Hin as [H|[H|[H|[H|[]]]]]; injection H as <- <- <-; reflexivity. }
  split; [exact Hparams|]. split; [|split].
  - intros c v -> Hv. unfold dict_get_default. now rewrite Hv.
  - intros [->|(c & -> & Hc)]; unfold dict_get_default; [reflexivity|now rewrite Hc].
  - intros st1 fd Henter Hs Hg Hsend.
    rewrite set_es_mode_state.
    rewrite (send_command_sent E n CMD_ES_SET_MODE _ st st1 fd Henter Hs Hg Hsend).
    now rewrite Hparams.
Qed.

Lemma accessor_sent n command params st fd :
  _sock (self st) = Some fd ->
  (exists a, os_getsockname E (clock (world st)) = inr a) ->
  os_sendto E (S (clock (world st))) = None ->
  map dg_payload (sent (world (snd (_send_command E (S n) command params st)))) =
    map dg_payload (sent (world st)) ++
    [encode_request E (request_of command params)].
Proof.
  intros Hs Hg Hsend.
  rewrite (send_command_sent E n command params st st fd); try assumption.
  - now rewrite map_app.
  - left. split; [congruence|reflexivity].
Qed.

(** X10.  The requests of the seven accessors, as they leave a held socket:
    the three without arguments carry the default params, the four others
    [{"id": 0}]; each accessor sends exactly one datagram. *)
Theorem accessor_requests n st fd :
  _sock (self st) = Some fd ->
  (exists a, os_getsockname E (clock (world st)) = inr a) ->
  os_sendto E (S (clock (world st))) = None ->
  let payloads_after (m : M pyval) :=
    map dg_payload (sent (world (snd (m st)))) in
  let expected (text : string) :=
    map dg_payload (sent (world st)) ++ [Bench.json_text text] in
  payloads_after (get_device_info E (S n)) =
    expected "{'id':1,'method':'Marstek.GetDevice','params':{'ble_mac':'0'}}" /\
  payloads_after (get_wifi_status E (S n)) =
    expected "{'id':1,'method':'Wifi.GetStatus','params':{'ble_mac':'0'}}" /\
  payloads_after (get_ble_status E (S n)) =
    expected "{'id':1,'method':'BLE.GetStatus','params':{'ble_mac':'0'}}" /\
  payloads_after (get_battery_status E (S n)) =
    expected "{'id':1,'method':'Bat.GetStatus','params':{'id':0}}" /\
  payloads_after (get_pv_status E (S n)) =
    expected "{'id':1,'method':'PV.GetStatus','params':{'id':0}}" /\
  payloads_after (get_es_status E (S n)) =
    expected "{'id':1,'method':'ES.GetStatus','params':{'id':0}}" /\
  payloads_after (get_es_mode E (S n)) =
    expected "{'id':1,'method':'ES.GetMode','params':{'id':0}}".
Proof.
  intros Hs Hg Hsend payloads_after expected.
  assert (Hmode : snd (get_es_mode E (S n) st) =
                  snd (_send_command E (S n) CMD_ES_GET_MODE
                         (Some [(lit "id", PInt 0)]) st)).
  { unfold get_es_mode, bind.
    destruct (_send_command E (S n) CMD_ES_GET_MODE _ st) as [[v|e|] s]; reflexivity. }
  unfold payloads_after, expected.
  rewrite Hmode.
  unfold get_device_info, get_wifi_status, get_ble_status, get_battery_status,
    get_pv_status, get_es_status.
  rewrite !(accessor_sent n _ _ st fd Hs Hg Hsend).
  repeat split.
Qed.

End Wire.

(** ** The coordinator and the registration *)

Section LayerProperties.

Variable E : Env.

(** X11.  [_async_update_data] never raises [UpdateFailed]: the snapshot of
    [get_all_data] always has three keys and so is never empty, and
    [get_all_data] never raises.  Also when every exchange with the device
    fails, the update succeeds, with a snapshot of three [None]. *)
Theorem update_never_fails n st :
  (exists device battery es_mode st',
     _async_update_data E (S (S n)) st =
       (Return (inr (PDict [(lit "device", device);
                            (lit "battery", battery);
                            (lit "es_mode", es_mode)])), st')) /\
  ((forall s, fault E s) ->
   fst (_async_update_data E (S (S n)) st) =
     Return (inr (PDict [(lit "device", PNone);
                         (lit "battery", PNone);
                         (lit "es_mode", PNone)]))).
Proof.
  destruct (get_all_data_cases E n st)
    as (r1 & r2 & r3 & s1 & s2 & s3 & H1 & H2 & H3 & Hall).
  split.
  - exists r1, r2, r3. eexists.
    unfold _async_update_data, try_except, bind. rewrite Hall. reflexivity.
  - intros Hf.
    unfold _async_update_data, try_except, bind. rewrite Hall. simpl.
    pose proof (send_command_all_fault E n CMD_GET_DEVICE None
                  (snd (logging DEBUG "Fetching all data from device..." st)) Hf) as N1.
    pose proof (send_command_all_fault E n CMD_BAT_STATUS
                  (Some [(lit "id", PInt 0)]) s1 Hf) as N2.
    pose proof (send_command_all_fault E n CMD_ES_GET_MODE
                  (Some [(lit "id", PInt 0)]) s2 Hf) as N3.
    unfold get_device_info in H1. unfold get_battery_status in H2.
    unfold get_es_mode, bind in H3.
    rewrite H1 in N1. rewrite H2 in N2.
    destruct (_send_command E (S (S n)) CMD_ES_GET_MODE _ s2) as [[v| |] s3'];
      try discriminate.
    simpl in N1, N2, N3, H3.
    injection N1 as ->. injection N2 as ->. injection N3 as ->.
    injection H3 as <- _. reflexivity.
Qed.

Lemma connect_step n st :
  _sock (self st) = None ->
  exists b s1, connect E (S n) st = (Return b, s1) /\ step st s1.
Proof.
  intros Hs.
  destruct (connect_cases E n st) as (b & s1 & Hc & Hst).
  exists b, s1. split; [exact Hc|].
  destruct Hst as [[(H1 & H2 & H3 & H4) _]|Hnew].
  - left. repeat split; assumption.
  - right. split; [exact Hs|]. now apply holds_created_new.
Qed.

Lemma validate_try_cases n st :
  _sock (self st) = None ->
  exists b s1,
    connect E (S (S n)) st = (Return b, s1) /\
    step st s1 /\
    if b then
      exists v s2,
        get_device_info E (S (S n)) s1 = (Return v, s2) /\
        step s1 s2 /\
        validate_input_try E (S (S n)) st = (validation_of v, s2)
    else
      validate_input_try E (S (S n)) st = (Return (inl CannotConnect), s1).
Proof.
  intros Hs.
  destruct (connect_step (S n) st Hs) as (b & s1 & Hc & Hst).
  exists b, s1. split; [exact Hc|]. split; [exact Hst|].
  unfold validate_input_try, try_except, bind. rewrite Hc.
  destruct b; simpl; [|reflexivity].
  destruct (send_command_step E n CMD_GET_DEVICE None s1) as (v & s2 & Hg & Hst2).
  exists v, s2. unfold get_device_info. split; [exact Hg|]. split; [exact Hst2|].
  rewrite Hg. unfold validation_of.
  destruct (truthy v) eqn:Hv; simpl; [|reflexivity].
  destruct v; reflexivity.
Qed.

Lemma validate_input_unfold n host port st :
  validate_input E (S (S n)) host port st =
  try_finally (validate_input_try E (S (S n))) (disconnect E)
    (registration host port st).
Proof. reflexivity. Qed.

Lemma finally_disconnect {A} (body : M A) st o s :
  body st = (o, s) -> o <> OutOfFuel ->
  try_finally body (disconnect E) st = (o, snd (disconnect E s)).
Proof.
  intros Hb Ho. unfold try_finally. rewrite Hb.
  destruct (disconnect_cases E s) as (s' & Hd & _). rewrite Hd.
  destruct o; [reflexivity|reflexivity|now elim Ho].
Qed.

(** X12.  How [validate_input] classifies a device.  It raises
    [CannotConnect] exactly when [connect()] returns [False].  Otherwise it
    asks [get_device_info] a second time: an answer without truth value
    raises [InvalidDevice]; a non-empty object gives title and model from
    its ["device"] (default ["Marstek Device"]) and the serial from its
    ["ble_mac"] (default ["unknown"]); any other answer raises
    [AttributeError]. *)
Theorem validate_input_classifies n host port st :
  exists b s1,
    connect E (S (S n)) (registration host port st) = (Return b, s1) /\
    if b then
      exists v s2,
        get_device_info E (S (S n)) s1 = (Return v, s2) /\
        fst (validate_input E (S (S n)) host port st) = validation_of v
    else
      fst (validate_input E (S (S n)) host port st) = Return (inl CannotConnect).
Proof.
  destruct (validate_try_cases n (registration host port st) eq_refl)
    as (b & s1 & Hc & _ & H).
  exists b, s1. split; [exact Hc|].
  rewrite validate_input_unfold.
  destruct b.
  - destruct H as (v & s2 & Hg & _ & Ht). exists v, s2. split; [exact Hg|].
    rewrite (finally_disconnect _ _ _ _ Ht); [reflexivity|].
    unfold validation_of. destruct (truthy v); [destruct v|]; discriminate.
  - rewrite (finally_disconnect _ _ _ _ H); [reflexivity|discriminate].
Qed.

(** X13.  [validate_input] leaves nothing behind.  Whatever it returns or
    raises, the client it used ends disconnected, and when no socket was open
    before none is open after. *)
Theorem validate_input_closes_socket n host port st :
  open_socks (world st) = [] ->
  _sock (self (snd (validate_input E (S (S n)) host port st))) = None /\
  _connected (self (snd (validate_input E (S (S n)) host port st))) = false /\
  open_socks (world (snd (validate_input E (S (S n)) host port st))) = [] /\
  fst (validate_input E (S (S n)) host port st) <> OutOfFuel.
Proof.
  intros Hopen.
  set (st0 := registration host port st).
  assert (Hinv0 : sock_inv st0) by exact Hopen.
  assert (Hbody : exists o s,
            validate_input_try E (S (S n)) st0 = (o, s) /\
            o <> OutOfFuel /\ step st0 s).
  { destruct (validate_try_cases n st0 eq_refl) as (b & s1 & Hc & Hst & H).
    destruct b.
    - destruct H as (v & s2 & Hg & Hst2 & Ht).
      exists (validation_of v), s2. split; [exact Ht|]. split.
      + unfold validation_of. destruct (truthy v); [destruct v|]; discriminate.
      + now apply step_trans with s1.
    - exists (Return (inl CannotConnect)), s1.
      split; [exact H|]. split; [discriminate|exact Hst]. }
  destruct Hbody as (o & s & Ht & Ho & Hst).
  rewrite validate_input_unfold. fold st0.
  rewrite (finally_disconnect _ _ _ _ Ht Ho). simpl.
  pose proof (step_sock_inv _ _ Hst Hinv0) as Hinv.
  pose proof (disconnect_sock_inv E s Hinv) as Hinv'.
  destruct (disconnect_cases E s) as (s' & Hd & Hs' & Hconn & _).
  rewrite Hd in Hinv' |- *. simpl in *.
  split; [exact Hs'|]. split; [|split; [|exact Ho]].
  - apply Hconn.
    destruct Hst as [(Hself & _)|(_ & Hnew)].
    + right. now rewrite Hself.
    + left. destruct Hnew as (H1 & _). congruence.
  - unfold sock_inv in Hinv'. now rewrite Hs' in Hinv'.
Qed.

End LayerProperties.

(** ** The entities *)

Lemma in_modes_iff (s : pystr) (modes : list pystr) :
  existsb (str_eqb s) modes = true <-> In s modes.
Proof.
  rewrite existsb_exists. split.
  - intros (m & Hin & Heq). apply str_eqb_eq in Heq. now subst.
  - intros Hin. exists s. split; [exact Hin|]. now apply str_eqb_eq.
Qed.

(** X14.  The two power sensors split the signed [ongrid_power] [p] of an
    [es_mode] object: charging is [max(0, -p)], discharging is [max(0, p)],
    so both are non-negative, at most one is non-zero and their difference
    is [p]; a missing [ongrid_power] counts as 0.  Without an [es_mode]
    object both are 0, never [None].  An [ongrid_power] that is [null] makes
    both raise [TypeError]. *)
Theorem power_split (data : pydict) :
  (forall d p,
     dict_get data (lit "es_mode") = Some (PDict d) ->
     dict_get_default d (lit "ongrid_power") (PInt 0) = PInt p ->
     exists c dc,
       Sensor.battery_charging_power data = inr (PInt c) /\
       Sensor.battery_discharging_power data = inr (PInt dc) /\
       (0 <= c /\ 0 <= dc /\ (c = 0 \/ dc = 0) /\ dc - c = p)%Z) /\
  (is_dict (dict_get_default data (lit "es_mode") PNone) = false ->
   Sensor.battery_charging_power data = inr (PInt 0) /\
   Sensor.battery_discharging_power data = inr (PInt 0)) /\
  (forall d,
     dict_get data (lit "es_mode") = Some (PDict d) ->
     dict_get d (lit "ongrid_power") = Some PNone ->
     Sensor.battery_charging_power data = inl TypeError /\
     Sensor.battery_discharging_power data = inl TypeError).
Proof.
  unfold Sensor.battery_charging_power, Sensor.battery_discharging_power,
    Sensor.ongrid_power_or_zero, py_get_default.
  split; [|split].
  - intros d p Hd Hp. unfold dict_get_default in *.
    rewrite Hd. cbn [is_dict and_then]. rewrite Hp. cbn [py_lt_zero py_gt_zero and_then].
    exists (Z.max 0 (- p)), (Z.max 0 p).
    destruct (Z.ltb_spec p 0); destruct (Z.ltb_spec 0 p); cbn [and_then py_abs];
      try rewrite Hp; cbn [py_abs]; repeat split; try (f_equal; f_equal; lia); lia.
  - intros Hn. rewrite Hn. split; reflexivity.
  - intros d Hd Hp. unfold dict_get_default. rewrite Hd. cbn [is_dict and_then].
    rewrite Hp. split; reflexivity.
Qed.

(** X15.  What the selector shows.  [current_option] is [None] or one of
    the four modes; it is the mode [m] exactly when the snapshot has an
    [es_mode] object whose ["mode"] is the string [m], listed in [ES_MODES];
    and whenever it is not [None] the [es_mode] sensor has the same value. *)
Theorem current_option_is_listed (data : pydict) :
  (Select.current_option data = PNone \/
   exists m, In m ES_MODES /\ Select.current_option data = PStr m) /\
  (forall m,
     Select.current_option data = PStr m <->
     exists d,
       dict_get data (lit "es_mode") = Some (PDict d) /\
       dict_get d (lit "mode") = Some (PStr m) /\
       In m ES_MODES) /\
  (Select.current_option data <> PNone ->
   Sensor.es_mode data = inr (Select.current_option data)).
Proof.
  unfold Select.current_option, Sensor.es_mode, Sensor.es_mode_field, dict_get_default.
  destruct (dict_get data (lit "es_mode")) as [[| | | | | |d]|] eqn:Hd;
    try (split; [now left|split; [intros m; split;
           [discriminate|intros (d' & Hd' & _); discriminate]|intros H; now elim H]]).
  cbn [is_dict py_get dict_get_default].
  unfold dict_get_default.
  destruct (dict_get d (lit "mode")) as [[| | | |s| |]|] eqn:Hm; cbn [py_in_strings];
    try (split; [now left|split; [intros m; split;
           [discriminate|intros (d' & Hd' & Hm' & _); injection Hd' as <-;
                         rewrite Hm in Hm'; discriminate]|intros H; now elim H]]).
  destruct (existsb (str_eqb s) ES_MODES) eqn:Hin.
  - apply in_modes_iff in Hin.
    split; [right; exists s; auto|]. split; [|reflexivity].
    intros m. split.
    + intros [= <-]. exists d. auto.
    + intros (d' & Hd' & Hm' & _). injection Hd' as <-.
      rewrite Hm in Hm'. now injection Hm' as <-.
  - split; [now left|]. split; [|intros H; now elim H].
    intros m. split; [discriminate|].
    intros (d' & Hd' & Hm' & Hin'). injection Hd' as <-.
    rewrite Hm in Hm'. injection Hm' as <-.
    apply in_modes_iff in Hin'. congruence.
Qed.

(** X16.  A binary sensor of a battery object is unavailable ([is_on] is
    [None]) exactly when its flag is missing or [null]; any other flag gives
    its truth value, so a flag 0 is off and available. *)
Theorem flag_states (data b : pydict) (last_update_success : bool) :
  dict_get data (lit "battery") = Some (PDict b) ->
  BinarySensor.is_on (Some BinarySensor.battery_charging_allowed) data =
    inr match dict_get b (lit "charg_flag") with
        | None | Some PNone => PNone
        | Some v => PBool (truthy v)
        end /\
  BinarySensor.available last_update_success
    (Some BinarySensor.battery_charging_allowed) data =
    inr (last_update_success &&
         match dict_get b (lit "charg_flag") with
         | None | Some PNone => false
         | Some _ => true
         end) /\
  BinarySensor.is_on (Some BinarySensor.battery_discharging_allowed) data =
    inr match dict_get b (lit "dischrg_flag") with
        | None | Some PNone => PNone
        | Some v => PBool (truthy v)
        end.
Proof.
  intros Hb.
  unfold BinarySensor.available, BinarySensor.is_on,
    BinarySensor.battery_charging_allowed, BinarySensor.battery_discharging_allowed,
    Sensor.plain_field.
  unfold dict_get_default. rewrite Hb. cbn [py_get and_then].
  unfold dict_get_default.
  destruct (dict_get b (lit "charg_flag")) as [[]|];
    destruct (dict_get b (lit "dischrg_flag")) as [[]|];
    destruct last_update_success; repeat split.
Qed.

Section EntityProperties.

Variable E : Env.



Lemma set_es_mode_refresh n mode config st :
  refresh_requests (world (snd (set_es_mode E (S (S n)) mode config st))) =
  refresh_requests (world st).
Proof.
  rewrite set_es_mode_state.
  destruct (send_command_step E n CMD_ES_SET_MODE
              (Some (es_mode_params mode config)) st) as (v & st' & -> & Hst).
  simpl. destruct Hst as [(_ & _ & _ & H)|(_ & Hnew)]; [exact H|].
  now destruct Hnew as (_ & _ & _ & _ & _ & _ & _ & H).
Qed.

(** X18.  Choosing one of the four options calls [set_es_mode] with that
    option and no config.  The coordinator is asked for a refresh exactly
    when [set_es_mode] returns [True]; when it returns [False] nothing is
    asked; when it raises, the exception leaves [async_select_option]. *)
Theorem select_option_refreshes n option st :
  In option ES_MODES ->
  let st0 := snd (logging INFO "Attempting to set ES mode to: %s" st) in
  let chosen := async_select_option E (S (S n)) option st in
  match fst (set_es_mode E (S (S n)) option None st0) with
  | Return true =>
      fst chosen = Return tt /\
      refresh_requests (world (snd chosen)) = S (refresh_requests (world st))
  | Return false =>
      fst chosen = Return tt /\
      refresh_requests (world (snd chosen)) = refresh_requests (world st)
  | Raise e =>
      fst chosen = Raise e /\
      refresh_requests (world (snd chosen)) = refresh_requests (world st)
  | OutOfFuel => False
  end /\
  sent (world (snd chosen)) =
    sent (world (snd (set_es_mode E (S (S n)) option None st0))).
Proof.
  intros Hin st0 chosen.
  apply in_modes_iff in Hin.
  pose proof (set_es_mode_refresh n option None st0) as Href.
  assert (Hfuel : fst (set_es_mode E (S (S n)) option None st0) <> OutOfFuel).
  { unfold set_es_mode, bind.
    destruct (send_command_returns E n CMD_ES_SET_MODE
                (Some (es_mode_params option None)) st0) as (v & s & ->).
    destruct (truthy v); [|discriminate].
    destruct v; simpl; try discriminate. destruct (is_True _); discriminate. }
  assert (Hrun : chosen =
                 match set_es_mode E (S (S n)) option None st0 with
                 | (Return true, s) =>
                     async_request_refresh
                       (snd (logging INFO "Successfully set ES mode to: %s" s))
                 | (Return false, s) =>
                     logging ERROR "Failed to set ES mode to %s" s
                 | (Raise e, s) => (Raise e, s)
                 | (OutOfFuel, s) => (OutOfFuel, s)
                 end).
  { subst chosen. unfold async_select_option. rewrite Hin. cbn [negb].
    unfold bind at 1. fold st0.
    change (logging INFO "Attempting to set ES mode to: %s" st) with (Return tt, st0).
    cbv beta iota. unfold bind at 1.
    destruct (set_es_mode E (S (S n)) option None st0) as [[[|]|e|] s]; reflexivity. }
  rewrite Hrun. clear Hrun chosen.
  destruct (set_es_mode E (S (S n)) option None st0) as [[[|]|e|] s];
    simpl in *; try (now elim Hfuel); repeat split; try assumption.
  now rewrite Href.
Qed.

End EntityProperties.

(** * Examples on concrete environments *)

Import Bench.

(** With the default separators of [json.dumps] the text is not compact. *)
Example default_separators_not_compact :
  ~ compact (Json.dumps (fun _ => "0.0") ", " ": "
               (PDict [(lit "id", PInt 1); (lit "method", PStr CMD_GET_DEVICE)])).
Proof. intros [_ H]. vm_compute in H. discriminate. Qed.

Lemma send_command_reply_dispatch_witness :
  fst (_send_command (env (always "{'id':1,'result':{'set_result':true}}") reply_table)
         1 CMD_ES_GET_MODE (Some [(lit "id", PInt 0)]) connected)
    = Return (PDict [(lit "set_result", PBool true)]) /\
  fst (_send_command (env (always "{'id':1,'error':{'code':-32601}}") reply_table)
         1 CMD_PV_STATUS (Some [(lit "id", PInt 0)]) connected)
    = Return PNone /\
  fst (_send_command (env (always "{'set_result':true}") reply_table)
         1 CMD_GET_DEVICE None connected)
    = Return (PDict [(lit "set_result", PBool true)]) /\
  fst (_send_command answering 2 CMD_GET_DEVICE None fresh)
    = Return (PDict [(lit "device", PStr (lit "VenusE 3.0")); (lit "ver", PInt 139)]).
Proof.
  split; [|split; [|split]].
  - refine (proj1 (send_command_reply_dispatch
              (env (always "{'id':1,'result':{'set_result':true}}") reply_table)
              0 CMD_ES_GET_MODE (Some [(lit "id", PInt 0)]) connected connected
              (json_text "{'id':1,'result':{'set_result':true}}")
              [(lit "id", PInt 1);
               (lit "result", PDict [(lit "set_result", PBool true)])]
              _ _ _) [(lit "set_result", PBool true)] _).
    + left. split; [discriminate|reflexivity].
    + repeat split; simpl; try discriminate; eexists; reflexivity.
    + vm_compute. reflexivity.
    + reflexivity.
  - refine (proj1 (proj2 (send_command_reply_dispatch
              (env (always "{'id':1,'error':{'code':-32601}}") reply_table)
              0 CMD_PV_STATUS (Some [(lit "id", PInt 0)]) connected connected
              (json_text "{'id':1,'error':{'code':-32601}}")
              [(lit "id", PInt 1);
               (lit "error", PDict [(lit "code", PInt (-32601))])]
              _ _ _)) _ _).
    + left. split; [discriminate|reflexivity].
    + repeat split; simpl; try discriminate; eexists; reflexivity.
    + vm_compute. reflexivity.
    + reflexivity.
    + vm_compute. discriminate.
  - refine (proj2 (proj2 (send_command_reply_dispatch
              (env (always "{'set_result':true}") reply_table)
              0 CMD_GET_DEVICE None connected connected
              (json_text "{'set_result':true}")
              [(lit "set_result", PBool true)]
              _ _ _)) _ _).
    + left. split; [discriminate|reflexivity].
    + repeat split; simpl; try discriminate; eexists; reflexivity.
    + vm_compute. reflexivity.
    + reflexivity.
    + reflexivity.
  - refine (proj1 (send_command_reply_dispatch answering
              1 CMD_GET_DEVICE None fresh
              (snd (connect answering 1 (connecting fresh)))
              (json_text "{'id':1,'result':{'device':'VenusE 3.0','ver':139}}")
              [(lit "id", PInt 1);
               (lit "result", PDict [(lit "device", PStr (lit "VenusE 3.0"));
                                     (lit "ver", PInt 139)])]
              _ _ _)
              [(lit "device", PStr (lit "VenusE 3.0")); (lit "ver", PInt 139)] _).
    + right. split; [reflexivity|]. vm_compute. reflexivity.
    + vm_compute. repeat split; try discriminate; eexists; reflexivity.
    + vm_compute. reflexivity.
    + reflexivity.
Defined.

Lemma send_command_result_not_object_witness :
  fst (_send_command (env (always "{'id':1,'result':5}") reply_table)
         1 CMD_BAT_STATUS (Some [(lit "id", PInt 0)]) connected)
    = Return PNone.
Proof.
  refine (send_command_result_not_object
            (env (always "{'id':1,'result':5}") reply_table)
            0 CMD_BAT_STATUS (Some [(lit "id", PInt 0)]) connected connected
            (json_text "{'id':1,'result':5}")
            [(lit "id", PInt 1); (lit "result", PInt 5)] (PInt 5)
            _ _ _ _ _).
  - left. split; [discriminate|reflexivity].
  - repeat split; simpl; try discriminate; eexists; reflexivity.
  - vm_compute. reflexivity.
  - reflexivity.
  - discriminate.
Defined.

Lemma send_command_never_raises_witness :
  fst (_send_command (env silent reply_table) 2 CMD_GET_DEVICE None connected)
    = Return PNone /\
  fst (_send_command (env silent reply_table) 2 CMD_GET_DEVICE None fresh)
    = Return PNone.
Proof.
  split.
  - refine (proj1 (proj2 (proj2 (send_command_never_raises
              (env silent reply_table) 0 CMD_GET_DEVICE None connected)))
              connected _ _).
    + left. split; [discriminate|reflexivity].
    + apply (fault_recvfrom TimeoutError). reflexivity.
  - refine (proj2 (proj2 (proj2 (send_command_never_raises
              (env silent reply_table) 0 CMD_GET_DEVICE None fresh))) _ _).
    + reflexivity.
    + vm_compute. reflexivity.
Defined.

(** C3, counterexample.  ["Eco"] is none of the four modes, yet
    [set_es_mode("Eco")] sends an [ES.SetMode] request, and reports success
    when the device acknowledges it. *)
Lemma unknown_mode_is_sent :
  ~ In (lit "Eco") ES_MODES /\
  sent (world (snd (set_es_mode acknowledging 1 (lit "Eco") None connected))) =
    [{| dg_sock := 0;
        dg_payload := json_text
          "{'id':1,'method':'ES.SetMode','params':{'id':1,'config':{'mode':'Eco'}}}";
        dg_host := lit "192.168.1.50"; dg_port := 30000 |}] /\
  fst (set_es_mode acknowledging 1 (lit "Eco") None connected) = Return true.
Proof.
  split; [|split].
  - intros H. vm_compute in H. intuition discriminate.
  - vm_compute. reflexivity.
  - vm_compute. reflexivity.
Qed.

Lemma unknown_mode_forwarded_witness :
  es_mode_params (lit "Eco") None =
    [(lit "id", PInt 1); (lit "config", PDict [(lit "mode", PStr (lit "Eco"))])] /\
  async_select_option acknowledging 1 (lit "Eco") connected =
    (Return tt, snd (logging ERROR "Invalid ES mode: %s" connected)).
Proof.
  assert (H : ~ In (lit "Eco") ES_MODES).
  { intros H. vm_compute in H. intuition discriminate. }
  split.
  - exact (proj1 (unknown_mode_forwarded acknowledging 0 (lit "Eco") None connected H)).
  - exact (proj2 (proj2 (unknown_mode_forwarded acknowledging 0 (lit "Eco") None
                           connected H))).
Defined.

(** C4, counterexample.  [connect()] called on a client that already holds
    the open socket 0 returns [True] again, but does not reuse that socket:
    a second socket has been created, and it is the one held and open. *)
Lemma connect_twice_creates_two :
  let once := connect answering 2 fresh in
  let twice := connect answering 2 (snd once) in
  fst once = Return true /\
  _sock (self (snd once)) = Some 0 /\
  next_sock (world (snd once)) = 1 /\
  open_socks (world (snd once)) = [0] /\
  fst twice = Return true /\
  _sock (self (snd twice)) = Some 1 /\
  next_sock (world (snd twice)) = 2 /\
  open_socks (world (snd twice)) = [1].
Proof. vm_compute. repeat split. Qed.

Lemma connect_opens_new_socket_witness :
  (_sock (self (snd (connect answering 1 connected))) = Some 1 /\
   next_sock (world (snd (connect answering 1 connected))) = 2 /\
   _sock (self (snd (connect answering 1 connected))) <> Some 0 /\
   open_socks (world (snd (connect answering 1 connected))) = [1]) /\
  sock_inv (run_calls answering 1 [Connect; Connect; Disconnect; Connect] fresh) /\
  List.length (open_socks (world (run_calls answering 1
                    [Connect; Connect; Disconnect; Connect] fresh))) <= 1.
Proof.
  assert (Hinv : sock_inv connected) by reflexivity.
  assert (Hcr : sock_created connected).
  { intros fd [= <-]. simpl. lia. }
  split.
  - destruct (proj1 (connect_opens_new_socket answering 0 connected) eq_refl)
      as (Hs & Hn & Hrest).
    destruct (Hrest Hinv Hcr) as (Hne & Hopen).
    repeat split; assumption.
  - destruct (proj1 (proj2 (connect_opens_new_socket answering 0 fresh))
                [Connect; Connect; Disconnect; Connect]) as (H1 & _ & H2).
    + reflexivity.
    + intros fd H. discriminate H.
    + split; assumption.
Defined.

(** C5, counterexample.  A reply [{"set_result": true}] has no ["result"]
    object, and [set_es_mode] returns [True]; a reply [[1]] makes it raise. *)
Lemma set_es_mode_passthrough_true :
  parses (env (always "{'set_result':true}") reply_table)
    (json_text "{'set_result':true}") (PDict [(lit "set_result", PBool true)]) /\
  dict_get [(lit "set_result", PBool true)] (lit "result") = None /\
  fst (set_es_mode (env (always "{'set_result':true}") reply_table)
         1 (lit "Auto") None connected) = Return true /\
  parses (env (always "[1]") reply_table) (json_text "[1]") (PList [PInt 1]) /\
  fst (set_es_mode (env (always "[1]") reply_table)
         1 (lit "Auto") None connected) = Raise AttributeError.
Proof. vm_compute. repeat split. Qed.

Lemma set_es_mode_strict_witness :
  exists b,
    fst (set_es_mode acknowledging 1 (lit "Auto") None connected) = Return b /\
    (b = true <->
     (exists r,
        dict_get [(lit "id", PInt 1);
                  (lit "result", PDict [(lit "set_result", PBool true)])]
                 (lit "result") = Some (PDict r) /\
        dict_get r (lit "set_result") = Some (PBool true)) \/
     (dict_get [(lit "id", PInt 1);
                (lit "result", PDict [(lit "set_result", PBool true)])]
               (lit "result") = None /\
      dict_get [(lit "id", PInt 1);
                (lit "result", PDict [(lit "set_result", PBool true)])]
               (lit "error") = None /\
      dict_get [(lit "id", PInt 1);
                (lit "result", PDict [(lit "set_result", PBool true)])]
               (lit "set_result") = Some (PBool true))).
Proof.
  refine (proj2 (proj2 (set_es_mode_strict acknowledging 0 (lit "Auto") None connected))
            connected (json_text "{'id':1,'result':{'set_result':true}}")
            [(lit "id", PInt 1);
             (lit "result", PDict [(lit "set_result", PBool true)])] _ _ _).
  - left. split; [discriminate|reflexivity].
  - repeat split; simpl; try discriminate; eexists; reflexivity.
  - vm_compute. reflexivity.
Defined.

Lemma request_id_method_params_witness :
  sent (world (snd (_send_command acknowledging 1 CMD_GET_DEVICE (Some []) connected))) =
    [{| dg_sock := 0;
        dg_payload := json_text
          "{'id':1,'method':'Marstek.GetDevice','params':{'ble_mac':'0'}}";
        dg_host := lit "192.168.1.50"; dg_port := 30000 |}] /\
  compact (json_text "{'id':1,'method':'Marstek.GetDevice','params':{'ble_mac':'0'}}").
Proof.
  assert (H : enters_try acknowledging 0 connected connected).
  { left. split; [discriminate|reflexivity]. }
  assert (Hg : exists a, os_getsockname acknowledging (clock (world connected)) = inr a).
  { eexists. reflexivity. }
  split.
  - exact (proj1 (proj2 (request_id_method_params acknowledging 0 CMD_GET_DEVICE
                           (Some []) connected connected 0 H eq_refl Hg eq_refl))).
  - exact (proj2 (proj2 (proj2 (request_id_method_params acknowledging 0 CMD_GET_DEVICE
                           (Some []) connected connected 0 H eq_refl Hg eq_refl)))
             (fun _ => eq_refl)).
Defined.

Lemma get_all_data_snapshot_witness :
  fst (get_all_data (env silent reply_table) 2 fresh) =
    Return (PDict [(lit "device", PNone);
                   (lit "battery", PNone);
                   (lit "es_mode", PNone)]) /\
  map dg_payload (sent (world (snd (get_all_data acknowledging 2 connected)))) =
    [json_text "{'id':1,'method':'Marstek.GetDevice','params':{'ble_mac':'0'}}";
     json_text "{'id':1,'method':'Bat.GetStatus','params':{'id':0}}";
     json_text "{'id':1,'method':'ES.GetMode','params':{'id':0}}"].
Proof.
  split.
  - refine (proj1 (proj2 (get_all_data_snapshot (env silent reply_table) 0 fresh)) _).
    intros s. apply (fault_recvfrom TimeoutError). reflexivity.
  - rewrite (proj2 (proj2 (get_all_data_snapshot acknowledging 0 connected)) 0).
    + reflexivity.
    + reflexivity.
    + split; intros t; [eexists|]; reflexivity.
Defined.

Lemma manual_default_request_witness :
  sent (world (snd (set_es_mode acknowledging 1 (lit "Manual")
                      (Some [(lit "auto_cfg", PDict [(lit "enable", PInt 0)])])
                      connected))) =
    [{| dg_sock := 0;
        dg_payload := json_text
          "{'id':1,'method':'ES.SetMode','params':{'id':1,'config':{'mode':'Manual','manual_cfg':{'time_num':1,'start_time':'08:30','end_time':'20:30','week_set':127,'power':100,'enable':1}}}}";
        dg_host := lit "192.168.1.50"; dg_port := 30000 |}].
Proof.
  refine (proj2 (manual_default_request acknowledging 0
                   (Some [(lit "auto_cfg", PDict [(lit "enable", PInt 0)])])
                   connected connected 0 _ _ _ _ _)).
  - intros c H. injection H as <-. reflexivity.
  - left. split; [discriminate|reflexivity].
  - reflexivity.
  - eexists. reflexivity.
  - reflexivity.
Defined.

Lemma disconnect_always_clears_witness :
  exists st',
    disconnect_times answering 3 connected = (Return tt, st') /\
    _sock (self st') = None.
Proof.
  exact (proj2 (proj2 (disconnect_always_clears answering connected)) 2).
Defined.

(** ** Examples for the further properties *)


Lemma connect_bind_fallback_witness :
  (exists s v s',
     get_device_info port_in_use 1 s = (Return v, s') /\
     clock (world s) = 4 /\
     log (world s) = [(DEBUG, "Could not bind to port %s, using random port: %s")] /\
     fst (connect port_in_use 1 fresh) = Return (truthy v)) /\
  fst (connect port_in_use 1 fresh) = Return true.
Proof.
  split.
  - refine (proj1 (connect_bind_fallback port_in_use 0 fresh OSError _ _ _) _ _);
      reflexivity.
  - vm_compute. reflexivity.
Defined.

Lemma failed_probe_stays_connected_witness :
  fst (connect late 1 fresh) = Return false /\
  _connected (self (snd (connect late 1 fresh))) = true /\
  _sock (self (snd (connect late 1 fresh))) = Some 0 /\
  fst (_send_command late 1 CMD_GET_DEVICE None (snd (connect late 1 fresh))) =
    Return (PDict [(lit "device", PStr (lit "VenusE 3.0")); (lit "ver", PInt 139)]).
Proof.
  destruct (failed_probe_stays_connected late 0 fresh 3) as (H1 & H2 & H3 & H4).
  - split; [reflexivity|]. split; [reflexivity|]. left. split; reflexivity.
  - intros s Hk _. apply (fault_recvfrom TimeoutError). rewrite Hk. reflexivity.
  - split; [exact H1|]. split; [exact H2|]. split; [exact H3|].
    rewrite H4. vm_compute. reflexivity.
Defined.

Lemma send_command_socket_failure_witness :
  exists st',
    _send_command no_socket 2 CMD_GET_DEVICE None fresh = (Return PNone, st') /\
    self st' = self fresh /\
    sent (world st') = [] /\
    open_socks (world st') = [] /\
    next_sock (world st') = 0.
Proof.
  refine (send_command_socket_failure no_socket 0 CMD_GET_DEVICE None fresh OSError _ _);
    reflexivity.
Defined.

Lemma command_on_held_socket_witness :
  exists v st',
    _send_command answering 1 CMD_BAT_STATUS (Some [(lit "id", PInt 0)]) connected
      = (Return v, st') /\
    self st' = self connected /\
    open_socks (world st') = [0] /\
    next_sock (world st') = 1 /\
    (sent (world st') = [] \/
     sent (world st') =
       [{| dg_sock := 0;
           dg_payload :=
             Json.dumps (float_repr answering) "," ":"
               (PDict [(lit "id", PInt 1); (lit "method", PStr CMD_BAT_STATUS);
                       (lit "params", PDict [(lit "id", PInt 0)])]);
           dg_host := lit "192.168.1.50"; dg_port := 30000 |}]).
Proof.
  refine (command_on_held_socket answering 0 CMD_BAT_STATUS
            (Some [(lit "id", PInt 0)]) connected 0 _).
  reflexivity.
Defined.

Lemma reply_not_object_witness :
  fst (_send_command (env (always "[1]") reply_table) 1 CMD_GET_DEVICE None connected)
    = Return (PList [PInt 1]).
Proof.
  refine (reply_not_object (env (always "[1]") reply_table) 0 CMD_GET_DEVICE None
            connected connected (json_text "[1]") (PList [PInt 1]) _ _ _ _).
  - left. split; [discriminate|reflexivity].
  - repeat split; simpl; try discriminate; eexists; reflexivity.
  - vm_compute. reflexivity.
  - reflexivity.
Defined.

Lemma reply_cut_at_4096_witness :
  fst (_send_command oversized 1 CMD_ES_GET_MODE (Some [(lit "id", PInt 0)]) connected)
    = Return (PList [PInt 1]).
Proof.
  refine (reply_cut_at_4096 oversized 0 CMD_ES_GET_MODE (Some [(lit "id", PInt 0)])
            connected connected (json_text long_reply)
            (json_text "{'id':1,'result':{'set_result':true}}")
            (PList [PInt 1]) _ _ _ _).
  - left. split; [discriminate|reflexivity].
  - vm_compute. repeat split; try discriminate; eexists; reflexivity.
  - vm_compute. reflexivity.
  - left. vm_compute. reflexivity.
Defined.

Lemma mode_override_or_default_witness :
  exists cfg,
    es_mode_params (lit "Passive") (Some [(lit "passive_cfg", PDict [(lit "power", PInt 250)]);
                                          (lit "manual_cfg", PDict [])]) =
      [(lit "id", PInt 1);
       (lit "config", PDict [(lit "mode", PStr (lit "Passive"));
                             (lit "passive_cfg", cfg)])] /\
    cfg = PDict [(lit "power", PInt 250)].
Proof.
  destruct (mode_override_or_default acknowledging 0 (lit "Passive") (lit "passive_cfg")
              (PDict [(lit "power", PInt 100); (lit "cd_time", PInt 300)])
              (Some [(lit "passive_cfg", PDict [(lit "power", PInt 250)]);
                     (lit "manual_cfg", PDict [])])
              connected)
    as (cfg & Hparams & Hover & _).
  - do 3 right. left. reflexivity.
  - exists cfg. split; [exact Hparams|].
    apply (Hover _ _ eq_refl). reflexivity.
Defined.

Lemma accessor_requests_witness :
  map dg_payload
    (sent (world (snd (get_battery_status answering 1 connected)))) =
  [json_text "{'id':1,'method':'Bat.GetStatus','params':{'id':0}}"].
Proof.
  refine (proj1 (proj2 (proj2 (proj2
            (accessor_requests answering 0 connected 0 _ _ _))))).
  - reflexivity.
  - eexists. reflexivity.
  - reflexivity.
Defined.

Lemma validate_input_closes_socket_witness :
  _sock (self (snd (validate_input answering 2 (lit "192.168.1.50") None fresh))) = None /\
  _connected (self (snd (validate_input answering 2 (lit "192.168.1.50") None fresh)))
    = false /\
  open_socks (world (snd (validate_input answering 2 (lit "192.168.1.50") None fresh)))
    = [] /\
  fst (validate_input answering 2 (lit "192.168.1.50") None fresh) <> OutOfFuel.
Proof.
  refine (validate_input_closes_socket answering 0 (lit "192.168.1.50") None fresh _).
  reflexivity.
Defined.

Lemma flag_states_witness :
  BinarySensor.is_on (Some BinarySensor.battery_charging_allowed)
    [(lit "battery", PDict [(lit "charg_flag", PInt 0)])] = inr (PBool false) /\
  BinarySensor.available true (Some BinarySensor.battery_charging_allowed)
    [(lit "battery", PDict [(lit "charg_flag", PInt 0)])] = inr true /\
  BinarySensor.is_on (Some BinarySensor.battery_discharging_allowed)
    [(lit "battery", PDict [(lit "charg_flag", PInt 0)])] = inr PNone.
Proof.
  refine (flag_states [(lit "battery", PDict [(lit "charg_flag", PInt 0)])]
            [(lit "charg_flag", PInt 0)] true _).
  reflexivity.
Defined.


Lemma select_option_refreshes_witness :
  fst (async_select_option acknowledging 2 (lit "Auto") connected) = Return tt /\
  refresh_requests
    (world (snd (async_select_option acknowledging 2 (lit "Auto") connected))) = 1.
Proof.
  refine (proj1 (select_option_refreshes acknowledging 0 (lit "Auto") connected _)).
  left. reflexivity.
Defined.

Lemma power_split_witness :
  exists c dc,
    Sensor.battery_charging_power
      [(lit "es_mode", PDict [(lit "ongrid_power", PInt (-120))])] = inr (PInt c) /\
    Sensor.battery_discharging_power
      [(lit "es_mode", PDict [(lit "ongrid_power", PInt (-120))])] = inr (PInt dc) /\
    (0 <= c /\ 0 <= dc /\ (c = 0 \/ dc = 0) /\ dc - c = -120)%Z.
Proof.
  exact (proj1 (power_split [(lit "es_mode", PDict [(lit "ongrid_power", PInt (-120))])])
           [(lit "ongrid_power", PInt (-120))] (-120)%Z eq_refl eq_refl).
Defined.
